(** * InSilicoSeq: the error models of [iss/error_model.py]

    A shallow embedding of the module: the two phred conversions, the basic
    (normal-distribution) error model and the kernel-density error model,
    with the Python objects they touch kept in an explicit store and the two
    random generators ([random] and [numpy.random]) read from tapes. *)

From Stdlib Require Import ZArith Ascii String PrimFloat Uint63 FloatOps SpecFloat.
From Stdlib Require FloatAxioms.
From stdpp Require Import base option list gmap strings.

Open Scope string_scope.
Open Scope Z_scope.

#[local] Set Warnings "-inexact-float".
#[local] Set Warnings "-at-level-200-changed".

(** * Python floats

    Python's [float] and numpy's [float64] are IEEE binary64, which is what
    Rocq's primitive [float] computes with. *)

(** The float of an integer: [float(n)], exact up to 2^53 in absolute
    value, which covers every count and score of a profile. *)
Definition Z2F (z : Z) : float :=
  if z <? 0 then (- of_uint63 (Uint63.of_Z (- z)))%float
  else of_uint63 (Uint63.of_Z z).

(** Exceptions the module's code and its callees can raise. *)
Inductive exn : Type :=
  | KeyError
  | IndexError
  | ValueError
  | TypeError
  | AttributeError
  | UnboundLocalError
  | OverflowError.

Inductive outcome (A : Type) : Type :=
  | Return (a : A)
  | Raise (e : exn).
Arguments Return {A} a.
Arguments Raise {A} e.

Definition returned {A} (r : outcome A) : option A :=
  match r with Return a => Some a | Raise _ => None end.

Definition is_return {A} (r : outcome A) : bool :=
  match r with Return _ => true | Raise _ => false end.

(** [m / 2^k] rounded to the nearest integer, ties to the even one. *)
Definition round_half_even (m : Z) (k : Z) : Z :=
  let d := 2 ^ k in
  let q := m / d in
  let r := m mod d in
  match (2 * r ?= d) with
  | Lt => q
  | Gt => q + 1
  | Eq => if Z.even q then q else q + 1
  end.

(** [int(round(x))]: Python 3 rounds half to even; a NaN raises ValueError
    and an infinity OverflowError. *)
Definition py_round (x : float) : outcome Z :=
  match Prim2SF x with
  | S754_nan => Raise ValueError
  | S754_infinity _ => Raise OverflowError
  | S754_zero _ => Return 0
  | S754_finite s m e =>
      let v := if 0 <=? e then Z.pos m * 2 ^ e else round_half_even (Z.pos m) (- e) in
      Return (if s then - v else v)
  end.

(** [min(a, b)] of two floats: Python keeps [a] unless [b < a]. *)
Definition py_min (a b : float) : float :=
  if (b <? a)%float then b else a.

(** The two transcendental functions the module calls. They come from the C
    library behind CPython and numpy; the model takes them as an interface. *)
Class Libm : Type := {
  float_pow : float -> float -> float;   (* [x ** y] on floats *)
  np_log10 : float -> float              (* [numpy.log10] *)
}.

(** * The phred conversions (error_model.py, lines 11-22) *)

(** [phred_to_prob(q)]: [-q / 10] is a true division of integers, the power
    has the integer base 10 converted to a float. CPython turns a power
    that overflows to an infinity into OverflowError (a score far below
    zero); one that underflows is 0. *)
Definition phred_to_prob `{Libm} (q : Z) : outcome float :=
  let p := float_pow (Z2F 10) (Z2F (- q) / Z2F 10)%float in
  if is_infinity p then Raise OverflowError
  else Return (Z2F 1 - p)%float.

(** [prob_to_phred(p)] *)
Definition prob_to_phred `{Libm} (p : float) : outcome Z :=
  py_round (Z2F (- 10) * np_log10 (Z2F 1 - p))%float.

(** * The store, the random generators and the monad of effects *)

Abbreviation loc := nat (only parsing).

(** The objects the module handles. A [Bio.Seq.Seq] is immutable, a
    [MutableSeq] is updated in place; a [SeqRecord] refers to its sequence
    and maps annotation names to per-letter lists. *)
Inductive pyobj : Type :=
  | Seq (data : list ascii)
  | MutableSeq (data : list ascii)
  | PyList (items : list Z)
  | SeqRecord (seq : loc) (letter_annotations : gmap string loc).

(** Python's [random] module: the n-th call reads the n-th cell of a tape,
    a float for [random.random()] and an integer for the index drawn by
    [random.choice]. Every run of the generator is some tape. *)
Record PyRandom : Type := {
  rand_float : nat -> float;
  rand_below : nat -> nat;
  rand_calls : nat
}.

(** [numpy.random]: standard normal deviates and uniform samples. *)
Record NpRandom : Type := {
  np_gauss : nat -> float;
  np_sample : nat -> float;
  np_calls : nat
}.

Record world : Type := {
  heap : list pyobj;
  py_random : PyRandom;
  np_random : NpRandom;
  stdout : list string
}.

Definition set_heap (h : list pyobj) (w : world) : world :=
  {| heap := h; py_random := py_random w; np_random := np_random w; stdout := stdout w |}.
Definition set_py_random (g : PyRandom) (w : world) : world :=
  {| heap := heap w; py_random := g; np_random := np_random w; stdout := stdout w |}.
Definition set_np_random (g : NpRandom) (w : world) : world :=
  {| heap := heap w; py_random := py_random w; np_random := g; stdout := stdout w |}.
Definition set_stdout (o : list string) (w : world) : world :=
  {| heap := heap w; py_random := py_random w; np_random := np_random w; stdout := o |}.

(** A computation runs in a world and either returns or raises; the world
    it leaves behind is kept in both cases. *)
Definition M (A : Type) : Type := world -> outcome A * world.

Definition ret {A} (a : A) : M A := fun w => (Return a, w).
Definition raise {A} (e : exn) : M A := fun w => (Raise e, w).
Definition bind {A B} (m : M A) (k : A -> M B) : M B :=
  fun w => match m w with
           | (Return a, w') => k a w'
           | (Raise e, w') => (Raise e, w')
           end.
Definition lift {A} (r : outcome A) : M A := fun w => (r, w).

Notation "'let*' x ':=' m 'in' k" := (bind m (fun x => k))
  (at level 10, x name, m at level 200, k at level 200).

(** [print(s)] *)
Definition print (s : string) : M unit :=
  fun w => (Return tt, set_stdout (stdout w ++ [s]) w).

(** ** Store operations *)

Definition alloc (o : pyobj) : M loc :=
  fun w => (Return (length (heap w)), set_heap (heap w ++ [o]) w).

(** The object behind a reference; a reference from outside the store has
    no attributes at all. *)
Definition deref (l : loc) : M pyobj :=
  fun w => match heap w !! l with
           | Some o => (Return o, w)
           | None => (Raise AttributeError, w)
           end.

Definition store (l : loc) (o : pyobj) : M unit :=
  fun w => (Return tt, set_heap (<[l := o]> (heap w)) w).

(** [record.seq] *)
Definition get_seq (record : loc) : M loc :=
  let* o := deref record in
  match o with
  | SeqRecord s _ => ret s
  | _ => raise AttributeError
  end.

(** [len(x)] of a sequence or a list. *)
Definition py_len (l : loc) : M nat :=
  let* o := deref l in
  match o with
  | Seq d | MutableSeq d => ret (length d)
  | PyList q => ret (length q)
  | SeqRecord _ _ => raise TypeError
  end.

(** [seq.tomutable()]: a new [MutableSeq] holding a copy of the letters.
    Only [Seq] has the method. *)
Definition tomutable (s : loc) : M loc :=
  let* o := deref s in
  match o with
  | Seq d => alloc (MutableSeq d)
  | _ => raise AttributeError
  end.

(** [mutable_seq.toseq()]: a new [Seq] with the current letters. *)
Definition toseq (m : loc) : M loc :=
  let* o := deref m in
  match o with
  | MutableSeq d => alloc (Seq d)
  | _ => raise AttributeError
  end.

(** The letters [iter(mutable_seq)] walks through. *)
Definition letters (m : loc) : M (list ascii) :=
  let* o := deref m in
  match o with
  | Seq d | MutableSeq d => ret d
  | _ => raise TypeError
  end.

(** The items of a list object. *)
Definition items_of (l : loc) : M (list Z) :=
  let* o := deref l in
  match o with
  | PyList q => ret q
  | _ => raise TypeError
  end.

(** [mutable_seq[position] = c] *)
Definition setitem (m : loc) (position : nat) (c : ascii) : M unit :=
  let* o := deref m in
  match o with
  | MutableSeq d =>
      if decide (position < length d)%nat
      then store m (MutableSeq (<[position := c]> d))
      else raise IndexError
  | _ => raise TypeError
  end.

(** [record.letter_annotations[key]] *)
Definition get_letter_annotation (record : loc) (key : string) : M loc :=
  let* o := deref record in
  match o with
  | SeqRecord _ ann =>
      match ann !! key with
      | Some l => ret l
      | None => raise KeyError
      end
  | _ => raise AttributeError
  end.

(** [record.letter_annotations[key] = value]: Biopython's restricted
    dictionary accepts only a value as long as the record's sequence. *)
Definition set_letter_annotation (record : loc) (key : string) (value : loc) : M unit :=
  let* o := deref record in
  match o with
  | SeqRecord s ann =>
      let* n := py_len s in
      let* k := py_len value in
      if decide (k = n)
      then store record (SeqRecord s (<[key := value]> ann))
      else raise TypeError
  | _ => raise AttributeError
  end.

(** [d[k]] on a dictionary. *)
Definition dict_getitem {V} (d : gmap ascii V) (k : ascii) : M V :=
  match d !! k with
  | Some v => ret v
  | None => raise KeyError
  end.

(** ** The generators *)

(** [random.random()] *)
Definition random_random : M float :=
  fun w =>
    let g := py_random w in
    (Return (rand_float g (rand_calls g)),
     set_py_random {| rand_float := rand_float g; rand_below := rand_below g;
                      rand_calls := S (rand_calls g) |} w).

(** [random.choice(seq)]: the element at a drawn index below [len(seq)]. *)
Definition random_choice {A} (seq : list A) : M A :=
  fun w =>
    let g := py_random w in
    match seq !! (rand_below g (rand_calls g) mod length seq)%nat with
    | Some x =>
        (Return x,
         set_py_random {| rand_float := rand_float g; rand_below := rand_below g;
                          rand_calls := S (rand_calls g) |} w)
    | None => (Raise IndexError, w)
    end.

Definition np_advance (n : nat) (w : world) : world :=
  let g := np_random w in
  set_np_random {| np_gauss := np_gauss g; np_sample := np_sample g;
                   np_calls := (np_calls g + n)%nat |} w.

(** [numpy.random.normal(loc, scale, size)]: [size] samples, each
    [loc + scale * z] for a standard normal deviate [z]. *)
Definition np_random_normal (mu scale : float) (size : Z) : M (list float) :=
  fun w =>
    if size <? 0 then (Raise ValueError, w)
    else
      let g := np_random w in
      let n := Z.to_nat size in
      (Return (map (fun i => (mu + scale * np_gauss g (np_calls g + i)%nat)%float) (seq 0 n)),
       np_advance n w).

(** ** numpy helpers *)

(** [l[a:b]] and [l[a:]] for non-negative bounds. *)
Definition py_slice {A} (l : list A) (a b : nat) : list A := take (b - a) (drop a l).
Definition py_slice_from {A} (l : list A) (a : nat) : list A := drop a l.

(** [sum(l)] of integer counts. *)
Definition py_sum (l : list Z) : Z := foldl Z.add 0 l.

(** [count / total] on numpy scalars: a float64 true division, which
    yields NaN or an infinity (with a warning, no exception) when [total]
    is zero. *)
Definition np_true_divide (count total : Z) : float := (Z2F count / Z2F total)%float.

(** The compensated sum numpy checks the probabilities with. *)
Fixpoint kahan_loop (sum c : float) (l : list float) : float :=
  match l with
  | [] => sum
  | x :: l' =>
      let y := (x - c)%float in
      let t := (sum + y)%float in
      kahan_loop t ((t - sum) - y)%float l'
  end.
Definition kahan_sum (l : list float) : float :=
  match l with
  | [] => Z2F 0
  | x :: l' => kahan_loop x (Z2F 0) l'
  end.

(** [p.cumsum()] *)
Fixpoint cumsum_from (acc : float) (l : list float) : list float :=
  match l with
  | [] => []
  | x :: l' => let s := (acc + x)%float in s :: cumsum_from s l'
  end.
Definition cumsum (l : list float) : list float :=
  match l with
  | [] => []
  | x :: l' => x :: cumsum_from x l'
  end.

(** [cdf.searchsorted(u, side='right')] on a non-decreasing [cdf]: the
    first index whose entry exceeds [u], or [len(cdf)]. *)
Fixpoint searchsorted_right (cdf : list float) (u : float) : nat :=
  match cdf with
  | [] => 0%nat
  | x :: cdf' => if (u <? x)%float then 0%nat else S (searchsorted_right cdf' u)
  end.

(** The tolerance of the sum check, [sqrt(eps)] = 2^-26. *)
Definition atol : float := 0x1p-26%float.

(** The checks [numpy.random.choice(a, p=p)] makes before it draws. *)
Definition choice_args_ok {A} (a : list A) (p : list float) : bool :=
  negb (Nat.eqb (length a) 0)
  && Nat.eqb (length p) (length a)
  && negb (is_nan (kahan_sum p))
  && negb (existsb (fun x => (x <? Z2F 0)%float) p)
  && negb (atol <? abs (kahan_sum p - Z2F 1))%float.

(** The index a uniform sample [u] selects under the weights [p]. *)
Definition choice_index (p : list float) (u : float) : nat :=
  let cdf := cumsum p in
  let total := List.last cdf (Z2F 0) in
  searchsorted_right (map (fun x => (x / total)%float) cdf) u.

(** [numpy.random.choice(a, p=p)] *)
Definition np_random_choice {A} (a : list A) (p : list float) : M A :=
  fun w =>
    if choice_args_ok a p then
      let g := np_random w in
      match a !! choice_index p (np_sample g (np_calls g)) with
      | Some x => (Return x, np_advance 1 w)
      | None => (Raise IndexError, np_advance 1 w)
      end
    else (Raise ValueError, w).

(** ** Loops *)

(** [for nucl, qual in zip(mutable_seq, quality_list): body; position += 1].
    The pairs are the letters and scores as they stand when the loop
    starts: the body writes only at [position], after that letter was read. *)
Fixpoint for_zip (body : nat -> ascii -> Z -> M unit) (position : nat)
    (pairs : list (ascii * Z)) : M unit :=
  match pairs with
  | [] => ret tt
  | (nucl, qual) :: rest =>
      let* _ := body position nucl qual in
      for_zip body (S position) rest
  end.

(** [[f(x) for x in l]] *)
Fixpoint list_comp {A B} (f : A -> outcome B) (l : list A) : outcome (list B) :=
  match l with
  | [] => Return []
  | x :: l' =>
      match f x with
      | Raise e => Raise e
      | Return y =>
          match list_comp f l' with
          | Raise e => Raise e
          | Return ys => Return (y :: ys)
          end
      end
  end.

Definition nucl_A : ascii := "A"%char.
Definition nucl_T : ascii := "T"%char.
Definition nucl_C : ascii := "C"%char.
Definition nucl_G : ascii := "G"%char.

(** * BasicErrorModel (error_model.py, lines 35-76) *)

Module BasicErrorModel.

Record t : Type := {
  read_length : Z;
  insert_size : Z;
  quality : Z
}.

(** [__init__] *)
Definition init : t := {| read_length := 125; insert_size := 200; quality := 30 |}.

Section Methods.
Context `{Libm}.

(** [gen_phred_scores(self, mean_quality)] *)
Definition gen_phred_scores (self : t) (mean_quality : float) : M (list Z) :=
  let* samples := np_random_normal mean_quality 0.01%float (read_length self) in
  let norm := map (fun q => py_min q 0.9999%float) samples in
  lift (list_comp prob_to_phred norm).

(** [introduce_error_scores(self, record, orientation)] *)
Definition introduce_error_scores (self : t) (record : loc) (orientation : string) : M loc :=
  let* mean_quality := lift (phred_to_prob (quality self)) in
  let* phred := gen_phred_scores self mean_quality in
  let* phred_list := alloc (PyList phred) in
  let* _ := set_letter_annotation record "phred_quality" phred_list in
  ret record.

Definition nucl_choices : gmap ascii (list ascii) :=
  {[ nucl_A := [nucl_T; nucl_C; nucl_G];
     nucl_T := [nucl_A; nucl_C; nucl_G];
     nucl_C := [nucl_A; nucl_T; nucl_G];
     nucl_G := [nucl_A; nucl_T; nucl_C] ]}.

(** The body of the loop of [mut_sequence]. *)
Definition mut_body (mutable_seq : loc) (position : nat) (nucl : ascii) (qual : Z) : M unit :=
  let* r := random_random in
  let* p := lift (phred_to_prob qual) in
  if (p <? r)%float then
    let* choices := dict_getitem nucl_choices nucl in
    let* c := random_choice choices in
    setitem mutable_seq position c
  else ret tt.

(** [mut_sequence(self, record, orientation)] *)
Definition mut_sequence (self : t) (record : loc) (orientation : string) : M loc :=
  let* s := get_seq record in
  let* mutable_seq := tomutable s in
  let* quality_list := get_letter_annotation record "phred_quality" in
  let* nucls := letters mutable_seq in
  let* quals := items_of quality_list in
  let* _ := for_zip (mut_body mutable_seq) 0 (zip nucls quals) in
  toseq mutable_seq.

End Methods.
End BasicErrorModel.

(** * KernelDensityErrorModel (error_model.py, lines 79-186) *)

Module KernelDensityErrorModel.

(** One histogram of the profile: the bin counts and the bin edges. *)
Definition histogram : Type := (list Z * list float)%type.

(** An instance after [__init__]: the arrays read from the .npz archive. *)
Record t : Type := {
  npz_path : string;
  read_length : Z;
  insert_size : Z;
  quality_hist_forward : list histogram;
  quality_hist_reverse : list histogram;
  subst_matrix_forward : list (list Z);
  subst_matrix_reverse : list (list Z)
}.

(** The loop of [gen_phred_scores], with [phred_list] as it grows. *)
Fixpoint gen_phred_loop (histograms : list histogram) (phred_list : list Z) : M (list Z) :=
  match histograms with
  | [] => ret phred_list
  | hist :: rest =>
      let '(values, indices) := hist in
      let weights := map (fun v => np_true_divide v (py_sum values)) values in
      let* random_quality := np_random_choice (py_slice_from indices 1) weights in
      let* q := lift (py_round random_quality) in
      gen_phred_loop rest (phred_list ++ [q])
  end.

(** [gen_phred_scores(self, histograms)] *)
Definition gen_phred_scores (self : t) (histograms : list histogram) : M (list Z) :=
  gen_phred_loop histograms [].

(** [introduce_error_scores(self, record, orientation)] *)
Definition introduce_error_scores (self : t) (record : loc) (orientation : string) : M loc :=
  let* _ :=
    if decide (orientation = "forward") then
      let* phred := gen_phred_scores self (quality_hist_forward self) in
      let* phred_list := alloc (PyList phred) in
      set_letter_annotation record "phred_quality" phred_list
    else if decide (orientation = "reverse") then
      let* phred := gen_phred_scores self (quality_hist_reverse self) in
      let* phred_list := alloc (PyList phred) in
      set_letter_annotation record "phred_quality" phred_list
    else print "bad orientation. Fatal" in
  ret record.

(** [subst_matrix_to_choices(self, subst_dispatch_dict)] *)
Definition subst_matrix_to_choices (subst_dispatch_dict : list Z)
    : gmap ascii (list ascii * list float) :=
  let sums : gmap ascii Z :=
    {[ nucl_A := py_sum (py_slice subst_dispatch_dict 1 4);
       nucl_T := py_sum (py_slice subst_dispatch_dict 5 8);
       nucl_C := py_sum (py_slice subst_dispatch_dict 9 12);
       nucl_G := py_sum (py_slice_from subst_dispatch_dict 13) ]} in
  {[ nucl_A := ([nucl_T; nucl_C; nucl_G],
                map (fun count => np_true_divide count (sums !!! nucl_A))
                    (py_slice subst_dispatch_dict 1 4));
     nucl_T := ([nucl_A; nucl_C; nucl_G],
                map (fun count => np_true_divide count (sums !!! nucl_T))
                    (py_slice subst_dispatch_dict 5 8));
     nucl_C := ([nucl_A; nucl_T; nucl_G],
                map (fun count => np_true_divide count (sums !!! nucl_C))
                    (py_slice subst_dispatch_dict 9 12));
     nucl_G := ([nucl_A; nucl_T; nucl_C],
                map (fun count => np_true_divide count (sums !!! nucl_G))
                    (py_slice_from subst_dispatch_dict 13)) ]}.

Section Methods.
Context `{Libm}.

(** The body of the loop of [mut_sequence]. The local [subst_matrix] is
    unbound when neither branch assigned it. *)
Definition mut_body (subst_matrix : option (list (list Z))) (mutable_seq : loc)
    (position : nat) (nucl : ascii) (qual : Z) : M unit :=
  let* matrix := match subst_matrix with
                 | Some m => ret m
                 | None => raise UnboundLocalError
                 end in
  let* row := match matrix !! position with
              | Some r => ret r
              | None => raise IndexError
              end in
  let nucl_choices := subst_matrix_to_choices row in
  let* r := random_random in
  let* p := lift (phred_to_prob qual) in
  if (p <? r)%float then
    let* choice := dict_getitem nucl_choices nucl in
    let* c := np_random_choice (fst choice) (snd choice) in
    setitem mutable_seq position c
  else ret tt.

(** The matrix [mut_sequence] picks for an orientation (lines 169-174);
    [None] is the local left unassigned. *)
Definition select_subst_matrix (self : t) (orientation : string)
    : M (option (list (list Z))) :=
  if decide (orientation = "forward") then ret (Some (subst_matrix_forward self))
  else if decide (orientation = "reverse") then ret (Some (subst_matrix_reverse self))
  else let* _ := print "this is bad" in ret None.

(** [mut_sequence(self, record, orientation)] *)
Definition mut_sequence (self : t) (record : loc) (orientation : string) : M loc :=
  let* subst_matrix := select_subst_matrix self orientation in
  let* s := get_seq record in
  let* mutable_seq := tomutable s in
  let* quality_list := get_letter_annotation record "phred_quality" in
  let* nucls := letters mutable_seq in
  let* quals := items_of quality_list in
  let* _ := for_zip (mut_body subst_matrix mutable_seq) 0 (zip nucls quals) in
  toseq mutable_seq.

End Methods.
End KernelDensityErrorModel.

(** * A software [Libm]

    Power-series versions of the two functions, close to the C library's
    on the ranges used here; they let the model run on concrete inputs. *)

Module SoftLibm.

Definition ln2 : float := 0x1.62e42fefa39efp-1%float.
Definition ln10 : float := 0x1.26bb1bbb55516p+1%float.

(** [sum_j t^(2j+1) / (2j+1)], [fuel] terms from the term [t^k / k]. *)
Fixpoint atanh_series (fuel : nat) (power t2 : float) (k : Z) : float :=
  match fuel with
  | O => Z2F 0
  | S fuel' => (power / Z2F k + atanh_series fuel' (power * t2) t2 (k + 2))%float
  end.

(** The natural logarithm of a positive float [m * 2^e], [m] in [1/2, 1). *)
Definition ln (x : float) : float :=
  let (m, e) := FloatOps.Z.frexp x in
  let t := ((m - Z2F 1) / (m + Z2F 1))%float in
  (Z2F 2 * atanh_series 30 t (t * t) 1 + Z2F e * ln2)%float.

(** [sum_j r^j / j!], [fuel] terms from the term [r^(k-1) / (k-1)!]. *)
Fixpoint exp_series (fuel : nat) (term r : float) (k : Z) : float :=
  match fuel with
  | O => Z2F 0
  | S fuel' => (term + exp_series fuel' (term * r / Z2F k) r (k + 1))%float
  end.

Definition exp (y : float) : float :=
  let k := default 0 (returned (py_round (y / ln2)%float)) in
  let r := (y - Z2F k * ln2)%float in
  FloatOps.Z.ldexp (exp_series 30 (Z2F 1) r 1) k.

Definition pow (b y : float) : float := exp (y * ln b)%float.

Definition log10 (x : float) : float :=
  if (x <=? Z2F 0)%float then (if (x =? Z2F 0)%float then neg_infinity else nan)
  else (ln x / ln10)%float.

End SoftLibm.

Definition soft_libm : Libm :=
  {| float_pow := SoftLibm.pow; np_log10 := SoftLibm.log10 |}.

(** * A small world to run the model in *)

Module Sample.

Definition acgt : list ascii := [nucl_A; nucl_C; nucl_G; nucl_T].

(** Uniform draws 0.5, 0.9995, 0.5, ...; indices 0, 1, 2, ... *)
Definition tape : PyRandom :=
  {| rand_float := fun n => if Nat.even n then 0.5%float else 0.9995%float;
     rand_below := fun n => n;
     rand_calls := 0 |}.

Definition np_tape : NpRandom :=
  {| np_gauss := fun n => (Z2F (Z.of_nat n) / Z2F 10 - 0.3)%float;
     np_sample := fun n => (Z2F (Z.of_nat (n mod 7)) / Z2F 7)%float;
     np_calls := 0 |}.

(** A record of four letters with scores, and one not yet annotated. *)
Definition store0 : list pyobj :=
  [Seq acgt; PyList [30; 30; 30; 30]; SeqRecord 0 {["phred_quality" := 1%nat]};
   SeqRecord 0 ∅].

Definition world0 : world :=
  {| heap := store0; py_random := tape; np_random := np_tape; stdout := [] |}.

Definition profile : KernelDensityErrorModel.t :=
  {| KernelDensityErrorModel.npz_path := "profile.npz";
     KernelDensityErrorModel.read_length := 4;
     KernelDensityErrorModel.insert_size := 200;
     KernelDensityErrorModel.quality_hist_forward :=
       replicate 4 ([1; 2; 1], [0; 10; 20; 30]%float);
     KernelDensityErrorModel.quality_hist_reverse :=
       replicate 4 ([0; 1; 3], [0; 10; 20; 30]%float);
     KernelDensityErrorModel.subst_matrix_forward :=
       replicate 4 (map Z.of_nat (seq 0 16));
     KernelDensityErrorModel.subst_matrix_reverse :=
       replicate 4 (replicate 16 1) |}.

End Sample.

(** * More records and profiles to run the model on *)

Module Edge.

(** Four letters, the second of which is no base. *)
Definition anct : list ascii := [nucl_A; "N"%char; nucl_C; nucl_T].

(** The sample sequence with two scores only, a sequence with a letter
    that is no base, and the sample sequence with no score at all. *)
Definition store1 : list pyobj :=
  [Seq Sample.acgt; PyList [30; 30]; SeqRecord 0 {["phred_quality" := 1%nat]};
   Seq anct; PyList [30; 30; 30; 30]; SeqRecord 3 {["phred_quality" := 4%nat]};
   PyList []; SeqRecord 0 {["phred_quality" := 6%nat]}].

Definition world1 : world :=
  {| heap := store1; py_random := Sample.tape; np_random := Sample.np_tape; stdout := [] |}.

(** A basic model for reads of four letters. *)
Definition four : BasicErrorModel.t :=
  {| BasicErrorModel.read_length := 4; BasicErrorModel.insert_size := 200;
     BasicErrorModel.quality := 30 |}.

(** A profile for reads of two letters. *)
Definition short_profile : KernelDensityErrorModel.t :=
  {| KernelDensityErrorModel.npz_path := "short.npz";
     KernelDensityErrorModel.read_length := 2;
     KernelDensityErrorModel.insert_size := 200;
     KernelDensityErrorModel.quality_hist_forward :=
       replicate 2 ([1; 2; 1], [0; 10; 20; 30]%float);
     KernelDensityErrorModel.quality_hist_reverse :=
       replicate 2 ([0; 1; 3], [0; 10; 20; 30]%float);
     KernelDensityErrorModel.subst_matrix_forward :=
       replicate 2 (map Z.of_nat (seq 0 16));
     KernelDensityErrorModel.subst_matrix_reverse :=
       replicate 2 (replicate 16 1) |}.

(** A profile with a position at which nothing was observed. *)
Definition flat_profile : KernelDensityErrorModel.t :=
  {| KernelDensityErrorModel.npz_path := "flat.npz";
     KernelDensityErrorModel.read_length := 4;
     KernelDensityErrorModel.insert_size := 200;
     KernelDensityErrorModel.quality_hist_forward :=
       [([1; 2; 1], [0; 10; 20; 30]%float); ([0; 0; 0], [0; 10; 20; 30]%float);
        ([1; 2; 1], [0; 10; 20; 30]%float); ([1; 2; 1], [0; 10; 20; 30]%float)];
     KernelDensityErrorModel.quality_hist_reverse :=
       replicate 4 ([0; 1; 3], [0; 10; 20; 30]%float);
     KernelDensityErrorModel.subst_matrix_forward :=
       replicate 4 (replicate 16 0);
     KernelDensityErrorModel.subst_matrix_reverse :=
       replicate 4 (replicate 16 1) |}.

(** The sample profile with other counts in the first entry of each row. *)
Definition other_profile : KernelDensityErrorModel.t :=
  {| KernelDensityErrorModel.npz_path := "other.npz";
     KernelDensityErrorModel.read_length := 4;
     KernelDensityErrorModel.insert_size := 300;
     KernelDensityErrorModel.quality_hist_forward := [];
     KernelDensityErrorModel.quality_hist_reverse := [];
     KernelDensityErrorModel.subst_matrix_forward :=
       replicate 4 [99; 1; 2; 3; 98; 5; 6; 7; 97; 9; 10; 11; 96; 13; 14; 15];
     KernelDensityErrorModel.subst_matrix_reverse := [] |}.

End Edge.

(** * Vocabulary of the properties *)

Definition nucleotides : list ascii := [nucl_A; nucl_T; nucl_C; nucl_G].

Definition is_nucleotide (c : ascii) : Prop := c ∈ nucleotides.

(** The row of a source base in a 16-element count vector: the rows follow
    the order A, T, C, G. *)
Definition base_row (b : ascii) : option nat :=
  if decide (b = nucl_A) then Some 0%nat
  else if decide (b = nucl_T) then Some 1%nat
  else if decide (b = nucl_C) then Some 2%nat
  else if decide (b = nucl_G) then Some 3%nat
  else None.

(** The three bases a base can turn into, in the order A, T, C, G. *)
Definition other_bases (b : ascii) : list ascii :=
  filter (fun c => c <> b) nucleotides.

(** Counts turned into weights: each count over the sum of all of them. *)
Definition normalized (counts : list Z) : list float :=
  map (fun count => np_true_divide count (py_sum counts)) counts.

(** A 4x4 matrix stored row by row with rows and columns both in the order
    A, T, C, G keeps the count of [src] read as [dst] in entry
    [4 * src + dst]; its diagonal holds the same-base counts. *)
Definition cell (src dst : nat) : nat := (4 * src + dst)%nat.

(** Two count vectors with the same off-diagonal entries in row [src]. *)
Definition same_off_diagonal (src : nat) (v v' : list Z) : Prop :=
  forall dst, (dst < 4)%nat -> dst <> src -> v !! cell src dst = v' !! cell src dst.

(** Reading of the row-major claim: the choices of a source base are a
    function of the off-diagonal entries of its row alone. *)
Definition off_diagonal_only : Prop :=
  forall (b : ascii) (src : nat) (v v' : list Z),
    base_row b = Some src ->
    length v = 16%nat -> length v' = 16%nat ->
    same_off_diagonal src v v' ->
    KernelDensityErrorModel.subst_matrix_to_choices v !! b
    = KernelDensityErrorModel.subst_matrix_to_choices v' !! b.

(** The three counts the code reads for the base of row [k]. *)
Definition row_counts (v : list Z) (k : nat) : list Z :=
  py_slice v (4 * k + 1) (4 * k + 4).



(** The record refers to a [Seq] with the letters [d] and carries the
    scores [quals] as its "phred_quality" annotation. *)
Definition holds_record (w : world) (record : loc) (d : list ascii) (quals : list Z) : Prop :=
  exists s ann ql,
    heap w !! record = Some (SeqRecord s ann)
    /\ heap w !! s = Some (Seq d)
    /\ ann !! "phred_quality" = Some ql
    /\ heap w !! ql = Some (PyList quals).

(** The world in which the loop starts: the mutable copy of the letters is
    the newest object of the store. *)
Definition loop_start (w : world) (d : list ascii) : world :=
  set_heap (heap w ++ [MutableSeq d]) w.

(** What both [mut_sequence] methods do around their loop body. *)
Definition mutate_copy (body : loc -> nat -> ascii -> Z -> M unit) (record : loc) : M loc :=
  let* s := get_seq record in
  let* mutable_seq := tomutable s in
  let* quality_list := get_letter_annotation record "phred_quality" in
  let* nucls := letters mutable_seq in
  let* quals := items_of quality_list in
  let* _ := for_zip (body mutable_seq) 0 (zip nucls quals) in
  toseq mutable_seq.

(** The world after a message was printed. *)
Definition printed (s : string) (w : world) : world := set_stdout (stdout w ++ [s]) w.

(** The histograms [introduce_error_scores] hands to [gen_phred_scores]. *)
Definition quality_hist (self : KernelDensityErrorModel.t) (orientation : string)
    : option (list KernelDensityErrorModel.histogram) :=
  if decide (orientation = "forward") then Some (KernelDensityErrorModel.quality_hist_forward self)
  else if decide (orientation = "reverse") then Some (KernelDensityErrorModel.quality_hist_reverse self)
  else None.

(** The matrix [mut_sequence] of the kernel-density model goes through. *)
Definition subst_matrix_of (self : KernelDensityErrorModel.t) (orientation : string)
    : option (list (list Z)) :=
  if decide (orientation = "forward") then Some (KernelDensityErrorModel.subst_matrix_forward self)
  else if decide (orientation = "reverse") then Some (KernelDensityErrorModel.subst_matrix_reverse self)
  else None.

(** The turn at position [i] on the base [nucl] can draw its substitute:
    the matrix has a row for the position, numpy accepts the weights of the
    base, and every uniform sample of the generator selects one of the three
    bases. *)
Definition turn_draws (g : NpRandom) (matrix : list (list Z)) (i : nat) (nucl : ascii) : Prop :=
  exists row labels probs,
    matrix !! i = Some row
    /\ KernelDensityErrorModel.subst_matrix_to_choices row !! nucl = Some (labels, probs)
    /\ choice_args_ok labels probs = true
    /\ forall n, is_Some (labels !! choice_index probs (np_sample g n)).

(** The scores the kernel-density model draws from one histogram with the
    uniform sample [u]: the body of its loop, without the generator. *)
Definition draw_quality (hist : KernelDensityErrorModel.histogram) (u : float) : outcome Z :=
  let '(values, indices) := hist in
  let weights := map (fun v => np_true_divide v (py_sum values)) values in
  if choice_args_ok (py_slice_from indices 1) weights then
    match py_slice_from indices 1 !! choice_index weights u with
    | Some random_quality => py_round random_quality
    | None => Raise IndexError
    end
  else Raise ValueError.

(** Every histogram yields a score with the sample it is going to get. *)
Definition draws_defined (histograms : list KernelDensityErrorModel.histogram) (w : world) : Prop :=
  forall i hist, histograms !! i = Some hist ->
    exists q, draw_quality hist (np_sample (np_random w) (np_calls (np_random w) + i)) = Return q.

(** [touched lo hi t t']: [t'] comes from [t] by writing bases at
    positions from [lo] up to [hi - 1] only. *)
Definition touched (lo hi : nat) (t t' : list ascii) : Prop :=
  length t' = length t
  /\ (forall j, (j < lo \/ hi <= j)%nat -> t' !! j = t !! j)
  /\ (forall j c, t' !! j = Some c -> t !! j = Some c \/ is_nucleotide c).

(** * Reasoning about computations *)

(** [wp m Q w]: run from [w], [m] ends in an outcome and a world that
    satisfy [Q]. *)
Definition wp {A} (m : M A) (Q : outcome A -> world -> Prop) (w : world) : Prop :=
  Q (m w).1 (m w).2.

Definition py_tick (w : world) : world :=
  set_py_random {| rand_float := rand_float (py_random w);
                   rand_below := rand_below (py_random w);
                   rand_calls := S (rand_calls (py_random w)) |} w.

(** The store still starts with [h0]. *)
Definition grown (h0 : list pyobj) {A} (r : outcome A) (w : world) : Prop :=
  h0 `prefix_of` heap w.

(** Projections of updated worlds. *)
Ltac world_simpl :=
  cbn [heap py_random np_random stdout set_heap set_py_random set_np_random
       set_stdout py_tick np_advance rand_float rand_below rand_calls
       np_gauss np_sample np_calls] in *.

(** A list of length 16 is its 16 entries. *)
Ltac sixteen v :=
  do 16 (destruct v as [| ? v]; [discriminate |]);
  destruct v; [| discriminate].

Section TurnVocabulary.
Context `{Libm}.

(** The uniform draw made in world [w] exceeds [phred_to_prob(qual)]: the
    turn substitutes. *)
Definition drawn_substitution (w : world) (qual : Z) : bool :=
  match phred_to_prob qual with
  | Return p => (p <? rand_float (py_random w) (rand_calls (py_random w)))%float
  | Raise _ => false
  end.

(** What a turn at [position], entered in [w] with the copy holding [t],
    leaves in [w']: the letter there replaced by another base when the turn
    substitutes, the copy as it was otherwise. *)
Definition turn_post (m : loc) (position : nat) (nucl : ascii) (qual : Z)
    (t : list ascii) (w w' : world) : Prop :=
  exists t', heap w' !! m = Some (MutableSeq t')
    /\ if drawn_substitution w qual
       then exists c, c ∈ other_bases nucl /\ t' = <[position := c]> t
       else t' = t.

(** A loop body that behaves as a turn whenever it returns. *)
Definition turn_spec (body : loc -> nat -> ascii -> Z -> M unit) : Prop :=
  forall m position nucl qual t w,
    heap w !! m = Some (MutableSeq t) ->
    wp (body m position nucl qual)
       (fun r w' => match r with
                    | Return _ => turn_post m position nucl qual t w w'
                    | Raise _ => True
                    end) w.

(** The clamped samples the basic model converts to scores. *)
Definition basic_probabilities (self : BasicErrorModel.t) (mean_quality : float) (w : world)
    : list float :=
  map (fun i => py_min (mean_quality
                        + 0.01 * np_gauss (np_random w) (np_calls (np_random w) + i))%float
                       0.9999%float)
      (seq 0 (Z.to_nat (BasicErrorModel.read_length self))).

End TurnVocabulary.

(** * Vocabulary of the further properties *)

(** The world after [n] more calls of Python's generator. *)
Definition py_advance (n : nat) (w : world) : world :=
  let g := py_random w in
  set_py_random {| rand_float := rand_float g; rand_below := rand_below g;
                   rand_calls := (rand_calls g + n)%nat |} w.

(** The number of positions at which two sequences differ. *)
Definition changed (d d' : list ascii) : nat :=
  length (filter (fun p => p.1 <> p.2) (zip d d')).

(** The state of a loop when it reaches [position], started in [w0] on the
    letters [d]: the copy has the letters of [d] from [position] on, and the
    generators have moved by [pulls] and [picks] calls. *)
Definition loop_state (m : loc) (d : list ascii) (w0 : world)
    (pulls picks : nat -> list ascii -> nat) (position : nat) (w : world) : Prop :=
  exists t, heap w !! m = Some (MutableSeq t)
    /\ length t = length d
    /\ (forall j, (position <= j)%nat -> t !! j = d !! j)
    /\ py_random w = py_random (py_advance (pulls position t) w0)
    /\ np_random w = np_random (np_advance (picks position t) w0)
    /\ stdout w = stdout w0.

(** A histogram numpy cannot draw from: the bin edges are not one more than
    the counts, or every count is zero. *)
Definition degenerate (hist : KernelDensityErrorModel.histogram) : Prop :=
  length hist.2 <> S (length hist.1) \/ Forall (eq 0) hist.1.

(** The store [h] after the list [l] was added to it and made the
    "phred_quality" annotation of [record]. *)
Definition annotated (h : list pyobj) (record s : loc) (ann : gmap string loc)
    (l : list Z) : list pyobj :=
  <[record := SeqRecord s (<["phred_quality" := length h]> ann)]> (h ++ [PyList l])%list.

(** A generator that is a known one moved on: the counters add up. *)
Ltac moved_on Hgen :=
  unfold py_advance, np_advance in *; world_simpl;
  rewrite Hgen; world_simpl; f_equal; lia.

(** * The substitution table of the kernel-density model *)

Lemma base_row_cases (b : ascii) (k : nat) :
  base_row b = Some k ->
  (b = nucl_A /\ k = 0%nat) \/ (b = nucl_T /\ k = 1%nat)
  \/ (b = nucl_C /\ k = 2%nat) \/ (b = nucl_G /\ k = 3%nat).
Proof.
  unfold base_row. repeat case_decide; intros [= <-]; subst; auto.
Qed.

(** The entry of a base in the table built from a 16-element vector. *)
Lemma subst_matrix_to_choices_lookup (v : list Z) (b : ascii) (k : nat) :
  length v = 16%nat ->
  base_row b = Some k ->
  KernelDensityErrorModel.subst_matrix_to_choices v !! b
  = Some (other_bases b, normalized (row_counts v k)).
Proof.
  intros Hlen Hrow. sixteen v.
  destruct (base_row_cases b k Hrow) as [[-> ->] | [[-> ->] | [[-> ->] | [-> ->]]]];
    reflexivity.
Qed.

(** C1 (as the code has it): for a 16-element count vector and the base of
    row k, the choices are the three other bases, in the order A, T, C, G,
    weighted by entries 4k+1, 4k+2 and 4k+3 over their sum. Entry 4k, the
    first of each row, is never read: vectors that agree on the three
    entries give the same choices. *)
Theorem subst_matrix_to_choices_row (v : list Z) (b : ascii) (k : nat) :
  length v = 16%nat ->
  base_row b = Some k ->
  KernelDensityErrorModel.subst_matrix_to_choices v !! b
    = Some (other_bases b, normalized (row_counts v k))
  /\ (forall v', length v' = 16%nat -> row_counts v' k = row_counts v k ->
        KernelDensityErrorModel.subst_matrix_to_choices v' !! b
        = KernelDensityErrorModel.subst_matrix_to_choices v !! b).
Proof.
  intros Hlen Hrow. split; [now apply subst_matrix_to_choices_lookup |].
  intros v' Hlen' Hsame.
  rewrite (subst_matrix_to_choices_lookup v b k Hlen Hrow).
  rewrite (subst_matrix_to_choices_lookup v' b k Hlen' Hrow), Hsame. reflexivity.
Qed.

Lemma subst_matrix_to_choices_row_witness :
  KernelDensityErrorModel.subst_matrix_to_choices (map Z.of_nat (seq 0 16)) !! nucl_T
    = Some (other_bases nucl_T, normalized (row_counts (map Z.of_nat (seq 0 16)) 1))
  /\ (forall v', length v' = 16%nat ->
        row_counts v' 1 = row_counts (map Z.of_nat (seq 0 16)) 1 ->
        KernelDensityErrorModel.subst_matrix_to_choices v' !! nucl_T
        = KernelDensityErrorModel.subst_matrix_to_choices (map Z.of_nat (seq 0 16)) !! nucl_T).
Proof.
  apply (subst_matrix_to_choices_row (map Z.of_nat (seq 0 16)) nucl_T 1); reflexivity.
Defined.

(** C1 (as stated) fails: under the row-major reading the diagonal entry of
    row T is entry 5. Raising it from 1 to 2 leaves every off-diagonal entry
    of the row alone and changes the weights of T. *)
Lemma off_diagonal_only_fails : ~ off_diagonal_only.
Proof.
  intros Hclaim.
  specialize (Hclaim nucl_T 1%nat (replicate 16 1) (<[5%nat := 2]> (replicate 16 1))
                eq_refl eq_refl eq_refl).
  assert (Hsame : same_off_diagonal 1 (replicate 16 1) (<[5%nat := 2]> (replicate 16 1))).
  { intros dst Hlt Hne.
    destruct dst as [| [| [| [| ?]]]]; try lia; try reflexivity. }
  specialize (Hclaim Hsame). vm_compute in Hclaim. discriminate Hclaim.
Qed.

(** ** A row without substitutions *)

(** numpy refuses weights that are not numbers. *)
Lemma nan_weights_refused {A} (a : list A) (w : world) :
  np_random_choice a [nan; nan; nan] w = (Raise ValueError, w).
Proof.
  unfold np_random_choice.
  replace (choice_args_ok a [nan; nan; nan]) with false; [reflexivity |].
  unfold choice_args_ok.
  change (is_nan (kahan_sum [nan; nan; nan])) with true.
  now rewrite !andb_false_r.
Qed.




(** * Rules for computations *)

Lemma wp_bind {A B} (m : M A) (k : A -> M B) Q w :
  wp m (fun r w' => match r with
                    | Return a => wp (k a) Q w'
                    | Raise e => Q (Raise e) w'
                    end) w ->
  wp (bind m k) Q w.
Proof.
  unfold wp, bind. destruct (m w) as [[a | e] w']; auto.
Qed.

Lemma wp_mono {A} (m : M A) (Q Q' : outcome A -> world -> Prop) w :
  (forall r w', Q r w' -> Q' r w') -> wp m Q w -> wp m Q' w.
Proof. unfold wp. auto. Qed.

Lemma wp_run {A} (m : M A) Q w r w' : m w = (r, w') -> wp m Q w <-> Q r w'.
Proof. unfold wp. intros ->. reflexivity. Qed.

(** ** The loop rule *)

Lemma wp_for_zip body (I : nat -> world -> Prop) (Q : outcome unit -> world -> Prop) pairs :
  forall position w,
  I position w ->
  (forall k nucl qual w,
      pairs !! k = Some (nucl, qual) ->
      I (position + k)%nat w ->
      wp (body (position + k)%nat nucl qual)
         (fun r w' => match r with
                      | Return _ => I (S (position + k)) w'
                      | Raise e => Q (Raise e) w'
                      end) w) ->
  (forall w, I (position + length pairs)%nat w -> Q (Return tt) w) ->
  wp (for_zip body position pairs) Q w.
Proof.
  induction pairs as [| [nucl qual] rest IH]; intros position w HI Hbody Hend.
  - apply Hend. now rewrite Nat.add_0_r.
  - simpl. apply wp_bind.
    pose proof (Hbody 0%nat nucl qual w eq_refl) as H0.
    rewrite Nat.add_0_r in H0. specialize (H0 HI).
    eapply wp_mono; [| exact H0].
    intros [[] | e] w' Hr; simpl; [| exact Hr].
    apply IH.
    + exact Hr.
    + intros k n q w0 Hk HIk.
      replace (S position + k)%nat with (position + S k)%nat in * by lia.
      exact (Hbody (S k) n q w0 Hk HIk).
    + intros w0 Hw0. apply Hend. simpl length.
      replace (position + S (length rest))%nat with (S position + length rest)%nat by lia.
      exact Hw0.
Qed.

(** ** Rules for the primitives *)

Lemma wp_ret {A} (a : A) Q w : Q (Return a) w -> wp (ret a) Q w.
Proof. exact id. Qed.

Lemma wp_lift {A} (r : outcome A) Q w : Q r w -> wp (lift r) Q w.
Proof. exact id. Qed.

Lemma wp_random_random Q w :
  Q (Return (rand_float (py_random w) (rand_calls (py_random w)))) (py_tick w) ->
  wp random_random Q w.
Proof. exact id. Qed.

(** A draw leaves the store alone and returns an element of the list. *)
Lemma wp_random_choice {A} (l : list A) Q w :
  (forall r w', heap w' = heap w -> (forall c, r = Return c -> c ∈ l) -> Q r w') ->
  wp (random_choice l) Q w.
Proof.
  intros HQ. unfold wp, random_choice.
  destruct (l !! _) as [x |] eqn:Hx; simpl; apply HQ; try done.
  intros c [= <-]. eapply list_elem_of_lookup_2, Hx.
Qed.

Lemma wp_np_random_choice {A} (a : list A) (p : list float) Q w :
  (forall r w', heap w' = heap w -> (forall c, r = Return c -> c ∈ a) -> Q r w') ->
  wp (np_random_choice a p) Q w.
Proof.
  intros HQ. unfold wp, np_random_choice.
  destruct (choice_args_ok a p); [| now apply HQ].
  destruct (a !! _) as [x |] eqn:Hx; simpl; apply HQ; try done.
  intros c [= <-]. eapply list_elem_of_lookup_2, Hx.
Qed.

Lemma wp_dict_getitem {V} (d : gmap ascii V) (k : ascii) Q w :
  match d !! k with
  | Some v => Q (Return v) w
  | None => Q (Raise KeyError) w
  end -> wp (dict_getitem d k) Q w.
Proof. unfold wp, dict_getitem. destruct (d !! k); auto. Qed.

(** ** Rules for the store operations *)

Lemma wp_setitem m position c Q w :
  match heap w !! m with
  | Some (MutableSeq d) =>
      if decide (position < length d)%nat
      then Q (Return tt) (set_heap (<[m := MutableSeq (<[position := c]> d)]> (heap w)) w)
      else Q (Raise IndexError) w
  | Some _ => Q (Raise TypeError) w
  | None => Q (Raise AttributeError) w
  end -> wp (setitem m position c) Q w.
Proof.
  unfold wp, setitem, bind, deref.
  destruct (heap w !! m) as [[d | d | q | s ann] |]; simpl; try done.
  case_decide; done.
Qed.

Lemma wp_get_seq record Q w :
  match heap w !! record with
  | Some (SeqRecord s _) => Q (Return s) w
  | _ => Q (Raise AttributeError) w
  end -> wp (get_seq record) Q w.
Proof.
  unfold wp, get_seq, bind, deref.
  destruct (heap w !! record) as [[d | d | q | s ann] |]; done.
Qed.

Lemma wp_tomutable s Q w :
  match heap w !! s with
  | Some (Seq d) => Q (Return (length (heap w))) (set_heap (heap w ++ [MutableSeq d]) w)
  | _ => Q (Raise AttributeError) w
  end -> wp (tomutable s) Q w.
Proof.
  unfold wp, tomutable, bind, deref.
  destruct (heap w !! s) as [[d | d | q | s' ann] |]; done.
Qed.

Lemma wp_toseq m Q w :
  match heap w !! m with
  | Some (MutableSeq d) => Q (Return (length (heap w))) (set_heap (heap w ++ [Seq d]) w)
  | _ => Q (Raise AttributeError) w
  end -> wp (toseq m) Q w.
Proof.
  unfold wp, toseq, bind, deref.
  destruct (heap w !! m) as [[d | d | q | s' ann] |]; done.
Qed.

Lemma wp_letters m Q w :
  match heap w !! m with
  | Some (Seq d) | Some (MutableSeq d) => Q (Return d) w
  | Some _ => Q (Raise TypeError) w
  | None => Q (Raise AttributeError) w
  end -> wp (letters m) Q w.
Proof.
  unfold wp, letters, bind, deref.
  destruct (heap w !! m) as [[d | d | q | s' ann] |]; done.
Qed.

Lemma wp_items_of l Q w :
  match heap w !! l with
  | Some (PyList q) => Q (Return q) w
  | Some _ => Q (Raise TypeError) w
  | None => Q (Raise AttributeError) w
  end -> wp (items_of l) Q w.
Proof.
  unfold wp, items_of, bind, deref.
  destruct (heap w !! l) as [[d | d | q | s' ann] |]; done.
Qed.

Lemma wp_get_letter_annotation record key Q w :
  match heap w !! record with
  | Some (SeqRecord _ ann) =>
      match ann !! key with
      | Some l => Q (Return l) w
      | None => Q (Raise KeyError) w
      end
  | _ => Q (Raise AttributeError) w
  end -> wp (get_letter_annotation record key) Q w.
Proof.
  unfold wp, get_letter_annotation, bind, deref.
  destruct (heap w !! record) as [[d | d | q | s' ann] |]; try done.
  simpl. destruct (ann !! key); done.
Qed.

(** * The store only grows *)

Lemma prefix_of_insert_ge {A} (l1 l2 : list A) (i : nat) (x : A) :
  l1 `prefix_of` l2 -> (length l1 <= i)%nat -> l1 `prefix_of` <[i := x]> l2.
Proof.
  intros [k ->] Hi. exists (<[(i - length l1)%nat := x]> k).
  now rewrite insert_app_r_alt.
Qed.

Section Frame.
Context `{Libm}.
Variable h0 : list pyobj.

Lemma basic_mut_body_frame m position nucl qual w :
  (length h0 <= m)%nat -> h0 `prefix_of` heap w ->
  wp (BasicErrorModel.mut_body m position nucl qual) (grown h0) w.
Proof.
  intros Hm Hpre. unfold BasicErrorModel.mut_body.
  apply wp_bind, wp_random_random; cbv beta iota.
  apply wp_bind, wp_lift. destruct (phred_to_prob qual) as [p | e]; [| exact Hpre].
  destruct (_ <? _)%float; [| exact Hpre].
  apply wp_bind, wp_dict_getitem. case_match; [| exact Hpre].
  apply wp_bind, wp_random_choice. intros [c | e] w' Hheap _; unfold grown; [| now rewrite Hheap].
  apply wp_setitem. world_simpl. rewrite Hheap.
  destruct (heap w !! m) as [[d | d | q | s ann] |]; try done.
  case_decide; [| done]. now apply prefix_of_insert_ge.
Qed.

Lemma kde_mut_body_frame subst_matrix m position nucl qual w :
  (length h0 <= m)%nat -> h0 `prefix_of` heap w ->
  wp (KernelDensityErrorModel.mut_body subst_matrix m position nucl qual) (grown h0) w.
Proof.
  intros Hm Hpre. unfold KernelDensityErrorModel.mut_body.
  apply wp_bind. destruct subst_matrix as [matrix |]; [| exact Hpre].
  apply wp_ret, wp_bind. destruct (matrix !! position) as [row |]; [| exact Hpre].
  apply wp_ret, wp_bind, wp_random_random; cbv beta iota.
  apply wp_bind, wp_lift. destruct (phred_to_prob qual) as [p | e]; [| exact Hpre].
  destruct (_ <? _)%float; [| exact Hpre].
  apply wp_bind, wp_dict_getitem. case_match; [| exact Hpre].
  apply wp_bind, wp_np_random_choice.
  intros [c | e] w' Hheap _; unfold grown; [| now rewrite Hheap].
  apply wp_setitem. world_simpl. rewrite Hheap.
  destruct (heap w !! m) as [[d | d | q | s ann] |]; try done.
  case_decide; [| done]. now apply prefix_of_insert_ge.
Qed.

Lemma for_zip_frame (body : loc -> nat -> ascii -> Z -> M unit) (m : loc) pairs position w :
  (forall position nucl qual w,
      h0 `prefix_of` heap w -> wp (body m position nucl qual) (grown h0) w) ->
  h0 `prefix_of` heap w ->
  wp (for_zip (body m) position pairs) (grown h0) w.
Proof.
  intros Hbody Hpre.
  apply (wp_for_zip (body m) (fun _ w => h0 `prefix_of` heap w) (grown h0)); try done.
  intros k nucl qual w0 _ Hw0.
  eapply wp_mono; [| now apply Hbody]. now intros [[] | e] w'.
Qed.

(** [mutate_copy] writes to new objects only. *)
Lemma mutate_copy_frame (body : loc -> nat -> ascii -> Z -> M unit) record w :
  (forall m position nucl qual w,
      (length h0 <= m)%nat -> h0 `prefix_of` heap w ->
      wp (body m position nucl qual) (grown h0) w) ->
  h0 `prefix_of` heap w ->
  wp (mutate_copy body record)
     (fun r w' => h0 `prefix_of` heap w'
                  /\ forall out, r = Return out -> (length h0 <= out)%nat) w.
Proof.
  intros Hbody Hpre. unfold mutate_copy.
  apply wp_bind, wp_get_seq.
  destruct (heap w !! record) as [[d | d | q | s ann] |]; try done.
  apply wp_bind, wp_tomutable.
  destruct (heap w !! s) as [[d | d | q | s' ann'] |]; try done.
  assert (Hpre1 : h0 `prefix_of` (heap w ++ [MutableSeq d])%list) by now apply prefix_app_r.
  assert (Hm : (length h0 <= length (heap w))%nat) by now apply prefix_length.
  set (w1 := set_heap _ w). set (m := length (heap w)) in *.
  apply wp_bind, wp_get_letter_annotation.
  destruct (heap w1 !! record) as [[d1 | d1 | q1 | s1 ann1] |]; try done.
  destruct (ann1 !! "phred_quality") as [ql |]; [| done].
  apply wp_bind, wp_letters.
  destruct (heap w1 !! m) as [[d1 | d1 | q1 | s2 ann2] |]; try done;
    (apply wp_bind, wp_items_of;
     destruct (heap w1 !! ql) as [[d2 | d2 | q2 | s3 ann3] |]; try done;
     apply wp_bind;
     eapply wp_mono; [| apply for_zip_frame; [intros; now apply Hbody | exact Hpre1]];
     intros [[] | e] w2 Hw2; [| done];
     apply wp_toseq; unfold grown in Hw2;
     destruct (heap w2 !! m) as [[d3 | d3 | q3 | s4 ann4] |]; try done;
     split; [now apply prefix_app_r | intros out [= <-]; now apply prefix_length]).
Qed.
End Frame.

(** * One turn of the substitution loops *)

Lemma other_bases_spec (nucl c : ascii) :
  c ∈ other_bases nucl <-> is_nucleotide c /\ c <> nucl.
Proof.
  unfold other_bases, is_nucleotide. rewrite list_elem_of_filter. tauto.
Qed.

Lemma other_bases_nonempty (nucl : ascii) :
  is_nucleotide nucl -> other_bases nucl <> [].
Proof.
  unfold is_nucleotide, nucleotides. rewrite !elem_of_cons, elem_of_nil.
  intros [-> | [-> | [-> | [-> | []]]]]; discriminate.
Qed.

Lemma basic_nucl_choices_lookup (nucl : ascii) :
  BasicErrorModel.nucl_choices !! nucl
  = if decide (is_nucleotide nucl) then Some (other_bases nucl) else None.
Proof.
  unfold BasicErrorModel.nucl_choices.
  destruct (decide (nucl = nucl_A)) as [-> | HA]; [reflexivity |].
  destruct (decide (nucl = nucl_T)) as [-> | HT]; [reflexivity |].
  destruct (decide (nucl = nucl_C)) as [-> | HC]; [reflexivity |].
  destruct (decide (nucl = nucl_G)) as [-> | HG]; [reflexivity |].
  rewrite !lookup_insert_ne, lookup_singleton_ne by done.
  case_decide as Hn; [| reflexivity].
  unfold is_nucleotide, nucleotides in Hn.
  rewrite !elem_of_cons, elem_of_nil in Hn. tauto.
Qed.

Lemma kde_choices_labels (row : list Z) (nucl : ascii) labels probs :
  KernelDensityErrorModel.subst_matrix_to_choices row !! nucl = Some (labels, probs) ->
  labels = other_bases nucl.
Proof.
  unfold KernelDensityErrorModel.subst_matrix_to_choices.
  destruct (decide (nucl = nucl_A)) as [-> | HA];
    [rewrite lookup_insert_eq; now intros [= <- _] |].
  destruct (decide (nucl = nucl_T)) as [-> | HT];
    [rewrite lookup_insert_ne, lookup_insert_eq by done; now intros [= <- _] |].
  destruct (decide (nucl = nucl_C)) as [-> | HC];
    [rewrite !lookup_insert_ne, lookup_insert_eq by done; now intros [= <- _] |].
  destruct (decide (nucl = nucl_G)) as [-> | HG];
    [rewrite !lookup_insert_ne, lookup_singleton_eq by done; now intros [= <- _] |].
  rewrite !lookup_insert_ne, lookup_singleton_ne by done. discriminate.
Qed.

(** [random.choice] on a non-empty list always returns. *)
Lemma wp_random_choice_total {A} (l : list A) (Q : outcome A -> world -> Prop) w :
  l <> [] ->
  (forall c, c ∈ l -> Q (Return c) (py_tick w)) ->
  wp (random_choice l) Q w.
Proof.
  intros Hne HQ. unfold wp, random_choice.
  destruct (l !! _) as [x |] eqn:Hx; simpl.
  - apply HQ. eapply list_elem_of_lookup_2, Hx.
  - apply lookup_ge_None in Hx. destruct l; [done |].
    pose proof (Nat.mod_upper_bound
      (rand_below (py_random w) (rand_calls (py_random w))) (length (a :: l))) as Hlt.
    simpl in *. lia.
Qed.

Section Turn.
Context `{Libm}.

Lemma setitem_turn m position c t w (Q : outcome unit -> world -> Prop) :
  heap w !! m = Some (MutableSeq t) ->
  ((position < length t)%nat ->
   forall w', heap w' !! m = Some (MutableSeq (<[position := c]> t)) -> Q (Return tt) w') ->
  (~ (position < length t)%nat -> Q (Raise IndexError) w) ->
  wp (setitem m position c) Q w.
Proof.
  intros Hm Hok Herr. apply wp_setitem. rewrite Hm.
  case_decide as Hlt; [| now apply Herr].
  apply Hok; [done |]. world_simpl.
  apply list_lookup_insert_eq. eapply lookup_lt_Some, Hm.
Qed.

Lemma basic_mut_body_spec m position nucl qual t w :
  heap w !! m = Some (MutableSeq t) ->
  wp (BasicErrorModel.mut_body m position nucl qual)
     (fun r w' => match r with
                  | Return _ => turn_post m position nucl qual t w w'
                  | Raise _ => ~ (is_return (phred_to_prob qual) = true
                                  /\ is_nucleotide nucl /\ (position < length t)%nat)
                  end) w.
Proof.
  intros Hm. unfold BasicErrorModel.mut_body, turn_post, drawn_substitution.
  apply wp_bind, wp_random_random; cbv beta iota.
  apply wp_bind, wp_lift. destruct (phred_to_prob qual) as [p | e]; [| now intros [? _]].
  destruct (_ <? _)%float.
  - apply wp_bind, wp_dict_getitem. rewrite basic_nucl_choices_lookup.
    case_decide as Hn; [| tauto].
    apply wp_bind, wp_random_choice_total; [now apply other_bases_nonempty |].
    intros c Hc. apply (setitem_turn m position c t); [exact Hm | | tauto].
    intros _ w' Hw'. eauto.
  - apply wp_ret. eauto.
Qed.

Lemma kde_mut_body_spec subst_matrix m position nucl qual t w :
  heap w !! m = Some (MutableSeq t) ->
  wp (KernelDensityErrorModel.mut_body subst_matrix m position nucl qual)
     (fun r w' => match r with
                  | Return _ => turn_post m position nucl qual t w w'
                  | Raise _ => True
                  end) w.
Proof.
  intros Hm. unfold KernelDensityErrorModel.mut_body, turn_post.
  apply wp_bind. destruct subst_matrix as [matrix |]; [| done].
  apply wp_ret, wp_bind. destruct (matrix !! position) as [row |]; [| done].
  apply wp_ret, wp_bind, wp_random_random; cbv beta iota.
  unfold drawn_substitution.
  apply wp_bind, wp_lift. destruct (phred_to_prob qual) as [p | e]; [| done].
  destruct (_ <? _)%float.
  - apply wp_bind, wp_dict_getitem.
    destruct (_ !! nucl) as [[labels probs] |] eqn:Hl; [| done].
    apply kde_choices_labels in Hl as ->.
    apply wp_bind, wp_np_random_choice. intros [c | e] w' Hheap Hc; [| done].
    apply (setitem_turn m position c t); [now rewrite Hheap | | done].
    intros _ w'' Hw''. specialize (Hc c eq_refl). eauto.
  - apply wp_ret. eauto.
Qed.

End Turn.

(** * The substitution loops *)

Lemma for_zip_app body (l1 l2 : list (ascii * Z)) :
  forall position w,
  for_zip body position (l1 ++ l2) w
  = match for_zip body position l1 w with
    | (Return _, w1) => for_zip body (position + length l1) l2 w1
    | (Raise e, w1) => (Raise e, w1)
    end.
Proof.
  induction l1 as [| [nucl qual] l1 IH]; intros position w; simpl.
  - now rewrite Nat.add_0_r.
  - unfold bind. destruct (body position nucl qual w) as [[[] | e] w0]; [| reflexivity].
    rewrite IH. now replace (S position + length l1)%nat with (position + S (length l1))%nat by lia.
Qed.

Lemma touched_refl lo t : touched lo lo t t.
Proof. repeat split; auto. Qed.

Lemma touched_skip lo hi t t' : touched lo hi t t' -> touched lo (S hi) t t'.
Proof.
  intros (Hlen & Hout & Hin). repeat split; auto.
  intros j Hj. apply Hout. lia.
Qed.

Lemma touched_write lo hi t t' nucl c :
  (lo <= hi)%nat -> touched lo hi t t' -> c ∈ other_bases nucl ->
  touched lo (S hi) t (<[hi := c]> t').
Proof.
  intros Hle (Hlen & Hout & Hin) Hc. repeat split.
  - now rewrite length_insert.
  - intros j Hj. rewrite list_lookup_insert_ne by lia. apply Hout. lia.
  - intros j c' Hj. destruct (decide (j = hi)) as [-> | Hne].
    + apply list_lookup_insert_Some in Hj as [(_ & <- & _) | [? _]]; [| done].
      right. now apply other_bases_spec in Hc.
    + rewrite list_lookup_insert_ne in Hj by done. now apply Hin.
Qed.

Section Loop.
Context `{Libm}.

Lemma basic_turn_spec : turn_spec BasicErrorModel.mut_body.
Proof.
  intros m position nucl qual t w Hm.
  eapply wp_mono; [| exact (basic_mut_body_spec m position nucl qual t w Hm)].
  now intros [[] | e] w'.
Qed.

Lemma kde_turn_spec subst_matrix :
  turn_spec (KernelDensityErrorModel.mut_body subst_matrix).
Proof. intros m position nucl qual t w Hm. now apply kde_mut_body_spec. Qed.

Lemma turn_touched lo position m nucl qual t0 t w w' :
  (lo <= position)%nat -> touched lo position t0 t ->
  turn_post m position nucl qual t w w' ->
  exists t', heap w' !! m = Some (MutableSeq t') /\ touched lo (S position) t0 t'.
Proof.
  intros Hle Ht (t' & Hm & Hturn). exists t'. split; [exact Hm |].
  destruct (drawn_substitution w qual).
  - destruct Hturn as (c & Hc & ->). now apply (touched_write lo position t0 t nucl c).
  - subst t'. now apply touched_skip.
Qed.

(** A loop that returns has written bases, and only at its own positions. *)
Lemma for_zip_touched body m pairs position w w' t :
  turn_spec body ->
  heap w !! m = Some (MutableSeq t) ->
  for_zip (body m) position pairs w = (Return tt, w') ->
  exists t', heap w' !! m = Some (MutableSeq t')
    /\ touched position (position + length pairs) t t'.
Proof.
  intros Hbody Hm Hrun.
  apply (wp_run _ (fun r w' => r = Return tt ->
           exists t', heap w' !! m = Some (MutableSeq t')
             /\ touched position (position + length pairs) t t') _ _ _ Hrun);
    [| reflexivity].
  apply (wp_for_zip (body m)
           (fun pos w => exists t', heap w !! m = Some (MutableSeq t')
                           /\ touched position pos t t')).
  - exists t. split; [exact Hm | apply touched_refl].
  - intros k nucl qual w0 _ (t1 & Hm1 & Ht1).
    eapply wp_mono; [| exact (Hbody m (position + k)%nat nucl qual t1 w0 Hm1)].
    intros [[] | e] w1 Hpost; [| discriminate].
    apply (turn_touched position (position + k)%nat m nucl qual t t1 w0 w1);
      [lia | exact Ht1 | exact Hpost].
  - auto.
Qed.

(** When the loop reaches position [i], the copy still has its first
    letters from [i] on: reading the letters when the loop starts, as
    [for_zip] does, is reading each letter when its turn comes. *)
Lemma for_zip_reads_current body m pairs i w wi t :
  turn_spec body ->
  heap w !! m = Some (MutableSeq t) ->
  for_zip (body m) 0 (take i pairs) w = (Return tt, wi) ->
  exists t', heap wi !! m = Some (MutableSeq t')
    /\ forall j, (i <= j)%nat -> t' !! j = t !! j.
Proof.
  intros Hbody Hm Hrun.
  destruct (for_zip_touched body m _ 0 w wi t Hbody Hm Hrun) as (t' & Hm' & _ & Hout & _).
  exists t'. split; [exact Hm' |].
  intros j Hj. apply Hout. right. rewrite length_take. lia.
Qed.

(** The turn at position [i] substitutes: the copy ends with another base
    there. *)
Lemma for_zip_substituted body m pairs i nucl qual w wi w' t :
  turn_spec body ->
  heap w !! m = Some (MutableSeq t) ->
  t !! i = Some nucl ->
  pairs !! i = Some (nucl, qual) ->
  for_zip (body m) 0 (take i pairs) w = (Return tt, wi) ->
  drawn_substitution wi qual = true ->
  for_zip (body m) 0 pairs w = (Return tt, w') ->
  exists t' c, heap w' !! m = Some (MutableSeq t')
    /\ length t' = length t /\ t' !! i = Some c /\ c <> nucl.
Proof.
  intros Hbody Hm Hti Hpi Hpre Hdraw Hrun.
  assert (Hlen : length (take i pairs) = i).
  { apply length_take_le. apply lookup_lt_Some in Hpi. lia. }
  rewrite <- (take_drop_middle pairs i (nucl, qual) Hpi), for_zip_app, Hpre in Hrun.
  rewrite Hlen in Hrun. simpl in Hrun. unfold bind in Hrun.
  destruct (body m i nucl qual wi) as [[[] | e] w1] eqn:Hturn; [| discriminate].
  destruct (for_zip_touched body m _ 0 w wi t Hbody Hm Hpre) as (t1 & Hm1 & Ht1).
  rewrite Hlen in Ht1. destruct Ht1 as (Hlen1 & Hout1 & _).
  pose proof (Hbody m i nucl qual t1 wi Hm1) as Hpost.
  apply (wp_run _ _ _ _ _ Hturn) in Hpost. destruct Hpost as (t2 & Hm2 & Hsub).
  rewrite Hdraw in Hsub. destruct Hsub as (c & Hc & ->).
  destruct (for_zip_touched body m _ (S i) w1 w' _ Hbody Hm2 Hrun) as (t3 & Hm3 & Ht3).
  destruct Ht3 as (Hlen3 & Hout3 & _).
  exists t3, c. split; [exact Hm3 |]. split.
  - now rewrite Hlen3, length_insert.
  - split; [| now apply other_bases_spec in Hc].
    rewrite Hout3 by lia. apply list_lookup_insert_eq.
    rewrite Hlen1. eapply lookup_lt_Some, Hti.
Qed.

End Loop.

(** * [mut_sequence] as a whole *)

Lemma loop_start_copy w d :
  heap (loop_start w d) !! length (heap w) = Some (MutableSeq d).
Proof. unfold loop_start. world_simpl. apply list_lookup_middle. reflexivity. Qed.

Lemma toseq_run m t w :
  heap w !! m = Some (MutableSeq t) ->
  toseq m w = (Return (length (heap w)), set_heap (heap w ++ [Seq t]) w).
Proof. intros Hm. unfold toseq, bind, deref. now rewrite Hm. Qed.

Lemma mutate_copy_run body w record d quals :
  holds_record w record d quals ->
  mutate_copy body record w
  = match for_zip (body (length (heap w))) 0 (zip d quals) (loop_start w d) with
    | (Return _, w2) => toseq (length (heap w)) w2
    | (Raise e, w2) => (Raise e, w2)
    end.
Proof.
  intros (s & ann & ql & Hr & Hs & Ha & Hq).
  unfold mutate_copy, bind at 1. unfold get_seq, bind, deref. rewrite Hr. simpl.
  unfold tomutable, bind, deref. rewrite Hs. simpl.
  fold (loop_start w d).
  assert (Hr1 : heap (loop_start w d) !! record = Some (SeqRecord s ann))
    by now apply lookup_app_l_Some.
  assert (Hq1 : heap (loop_start w d) !! ql = Some (PyList quals))
    by now apply lookup_app_l_Some.
  unfold get_letter_annotation, bind, deref. rewrite Hr1, Ha. simpl.
  unfold letters, bind, deref. rewrite loop_start_copy. simpl.
  unfold items_of, bind, deref. rewrite Hq1. simpl.
  reflexivity.
Qed.

Section Whole.
Context `{Libm}.

(** Whatever [mutate_copy] returns is a new [Seq] that differs from the
    record's letters by written bases only. *)
Lemma mutate_copy_returns body w record d quals out w' :
  turn_spec body ->
  holds_record w record d quals ->
  mutate_copy body record w = (Return out, w') ->
  exists d', heap w' !! out = Some (Seq d')
    /\ touched 0 (length (zip d quals)) d d'.
Proof.
  intros Hbody Hrec Hrun. rewrite (mutate_copy_run body w record d quals Hrec) in Hrun.
  destruct (for_zip _ _ _ _) as [[[] | e] w2] eqn:Hloop; [| discriminate].
  destruct (for_zip_touched body _ _ 0 _ w2 d Hbody (loop_start_copy w d) Hloop)
    as (d' & Hm & Ht).
  rewrite (toseq_run _ d' w2 Hm) in Hrun. injection Hrun as <- <-.
  exists d'. split; [| exact Ht]. world_simpl. apply list_lookup_middle. reflexivity.
Qed.

Lemma touched_nucleotides lo hi d d' :
  touched lo hi d d' -> Forall is_nucleotide d -> Forall is_nucleotide d'.
Proof.
  intros (_ & _ & Hin) Hd. apply Forall_lookup. intros j c Hj.
  destruct (Hin j c Hj) as [Hold | Hnew]; [| exact Hnew].
  eapply Forall_lookup_1; eauto.
Qed.

(** On letters that are bases, with scores that convert, the loop of the
    basic model never raises. *)
Lemma basic_for_zip_returns m d quals w :
  Forall is_nucleotide d ->
  Forall (fun q => is_return (phred_to_prob q) = true) quals ->
  heap w !! m = Some (MutableSeq d) ->
  exists w', for_zip (BasicErrorModel.mut_body m) 0 (zip d quals) w = (Return tt, w').
Proof.
  intros Hd Hq Hm.
  assert (Hwp : wp (for_zip (BasicErrorModel.mut_body m) 0 (zip d quals))
                   (fun r _ => r = Return tt) w).
  { apply (wp_for_zip _ (fun _ w => exists t, heap w !! m = Some (MutableSeq t)
                                        /\ length t = length d)).
    - now exists d.
    - intros k nucl qual w0 Hk (t & Hm0 & Hlen). simpl.
      eapply wp_mono; [| exact (basic_mut_body_spec m k nucl qual t w0 Hm0)].
      intros [[] | e] w1 Hpost.
      + destruct Hpost as (t' & Hm1 & Hturn). exists t'. split; [exact Hm1 |].
        destruct (drawn_substitution w0 qual).
        * destruct Hturn as (c & _ & ->). now rewrite length_insert.
        * now subst t'.
      + exfalso. apply Hpost.
        apply lookup_zip_with_Some in Hk as (nucl' & qual' & [= <- <-] & Hdk & Hqk).
        split; [exact (Forall_lookup_1 _ _ _ _ Hq Hqk) |].
        split; [exact (Forall_lookup_1 _ _ _ _ Hd Hdk) |].
        rewrite Hlen. eapply lookup_lt_Some, Hdk.
    - reflexivity. }
  unfold wp in Hwp. destruct (for_zip _ _ _ _) as [r w'].
  simpl in Hwp. subst r. now exists w'.
Qed.

(** With a matrix whose turns can all draw, and scores that convert, the
    loop of the kernel-density model never raises. *)
Lemma kde_for_zip_returns matrix m d quals w :
  Forall (fun q => is_return (phred_to_prob q) = true) quals ->
  (forall i nucl qual, zip d quals !! i = Some (nucl, qual) ->
     turn_draws (np_random w) matrix i nucl) ->
  heap w !! m = Some (MutableSeq d) ->
  exists w', for_zip (KernelDensityErrorModel.mut_body (Some matrix) m) 0 (zip d quals) w
             = (Return tt, w').
Proof.
  intros Hq Hdraws Hm.
  assert (Hwp : wp (for_zip (KernelDensityErrorModel.mut_body (Some matrix) m) 0 (zip d quals))
                   (fun r _ => r = Return tt) w).
  { apply (wp_for_zip _ (fun _ w' => (exists t, heap w' !! m = Some (MutableSeq t)
                                          /\ length t = length d)
                                    /\ np_sample (np_random w') = np_sample (np_random w))).
    - split; [now exists d | reflexivity].
    - intros k nucl qual w0 Hk ((t & Hm0 & Hlen) & Hnp). simpl.
      destruct (Hdraws k nucl qual Hk) as (row & labels & probs & Hrow & Hch & Hok & Hidx).
      apply lookup_zip_with_Some in Hk as (nucl' & qual' & [= <- <-] & Hdk & Hqk).
      pose proof (Forall_lookup_1 _ _ _ _ Hq Hqk) as Hconv.
      assert (Hpos : (k < length t)%nat) by (rewrite Hlen; eapply lookup_lt_Some, Hdk).
      unfold KernelDensityErrorModel.mut_body.
      apply wp_bind, wp_ret, wp_bind. rewrite Hrow.
      apply wp_ret, wp_bind, wp_random_random; cbv beta iota.
      apply wp_bind, wp_lift. revert Hconv. cbv beta.
      destruct (phred_to_prob qual) as [p | e]; [intros _ | discriminate].
      destruct (_ <? _)%float.
      + apply wp_bind, wp_dict_getitem. rewrite Hch. apply wp_bind.
        unfold wp at 1, np_random_choice. simpl fst. simpl snd. rewrite Hok.
        world_simpl. rewrite Hnp.
        destruct (Hidx (np_calls (np_random w0))) as [c Hc]. rewrite Hc. simpl.
        apply wp_setitem. world_simpl. rewrite Hm0, decide_True by exact Hpos.
        world_simpl. split; [| exact Hnp].
        exists (<[k := c]> t). split; [| now rewrite length_insert].
        apply list_lookup_insert_eq. eapply lookup_lt_Some, Hm0.
      + apply wp_ret. split; [now exists t | exact Hnp].
    - reflexivity. }
  unfold wp in Hwp. destruct (for_zip _ _ _ _) as [r w'].
  simpl in Hwp. subst r. now exists w'.
Qed.

End Whole.

(** * Facts about the sample world *)

Lemma sample_record : holds_record Sample.world0 2 Sample.acgt [30; 30; 30; 30].
Proof. exists 0%nat, {["phred_quality" := 1%nat]}, 1%nat. now repeat split. Qed.

Lemma sample_nucleotides : Forall is_nucleotide Sample.acgt.
Proof. repeat constructor; unfold is_nucleotide, nucleotides; set_solver. Qed.

(** Every uniform sample of the sample tape selects a base under the
    weights of any row of the sample matrix. *)
Lemma sample_turn_draws i nucl qual :
  zip Sample.acgt [30; 30; 30; 30] !! i = Some (nucl, qual) ->
  turn_draws (np_random Sample.world0)
    (KernelDensityErrorModel.subst_matrix_forward Sample.profile) i nucl.
Proof.
  intros Hi.
  assert (Hsample : forall (labels : list ascii) (probs : list float),
            (forall k, (k < 7)%nat ->
               is_Some (labels !! choice_index probs (Z2F (Z.of_nat k) / Z2F 7)%float)) ->
            forall n, is_Some (labels !! choice_index probs
                                 (np_sample (np_random Sample.world0) n))).
  { intros labels probs Hk n. apply Hk. now apply Nat.mod_upper_bound. }
  assert (Hseven : forall (P : nat -> Prop),
            P 0%nat -> P 1%nat -> P 2%nat -> P 3%nat -> P 4%nat -> P 5%nat -> P 6%nat ->
            forall k, (k < 7)%nat -> P k).
  { intros P ? ? ? ? ? ? ? k Hk.
    destruct k as [| [| [| [| [| [| [| k]]]]]]]; try assumption; lia. }
  destruct i as [| [| [| [| i]]]]; try discriminate Hi; injection Hi as <- <-;
    (eexists _, _, _; split; [reflexivity |]; split; [reflexivity |];
     split; [vm_compute; reflexivity |];
     apply Hsample, Hseven; vm_compute; eauto).
Qed.

(** * Length and alphabet of the mutated sequence *)

Lemma select_subst_matrix_run (self : KernelDensityErrorModel.t) orientation w :
  exists subst_matrix w0,
    KernelDensityErrorModel.select_subst_matrix self orientation w = (Return subst_matrix, w0)
    /\ heap w0 = heap w.
Proof.
  unfold KernelDensityErrorModel.select_subst_matrix.
  repeat case_decide; eauto.
Qed.

Lemma select_subst_matrix_valid (self : KernelDensityErrorModel.t) orientation matrix w :
  subst_matrix_of self orientation = Some matrix ->
  KernelDensityErrorModel.select_subst_matrix self orientation w = (Return (Some matrix), w).
Proof.
  unfold subst_matrix_of, KernelDensityErrorModel.select_subst_matrix.
  repeat case_decide; now intros [= <-].
Qed.

Lemma holds_record_heap w w0 record d quals :
  heap w0 = heap w -> holds_record w record d quals -> holds_record w0 record d quals.
Proof. unfold holds_record. now intros ->. Qed.

Section Properties.
Context `{Libm}.

Lemma kde_mut_sequence_run self record orientation w subst_matrix w0 :
  KernelDensityErrorModel.select_subst_matrix self orientation w = (Return subst_matrix, w0) ->
  KernelDensityErrorModel.mut_sequence self record orientation w
  = mutate_copy (KernelDensityErrorModel.mut_body subst_matrix) record w0.
Proof.
  intros Hsel. unfold KernelDensityErrorModel.mut_sequence, bind at 1. now rewrite Hsel.
Qed.

(** C5: on a record whose letters are bases, with scores [phred_to_prob]
    converts, [mut_sequence] of the basic model returns a new sequence of
    the same length made of bases, whatever the draws. Every sequence
    [mut_sequence] of the kernel-density model returns has the same length
    and is made of bases, and it returns one when the orientation is
    "forward" or "reverse" and every turn can draw from its row of the
    matrix. The scores may be fewer or more than the letters. *)
Theorem mut_sequence_length_alphabet (w : world) (record : loc) (d : list ascii)
    (quals : list Z) (orientation : string) :
  holds_record w record d quals ->
  Forall is_nucleotide d ->
  Forall (fun q => is_return (phred_to_prob q) = true) quals ->
  (forall self, exists out w' d',
      BasicErrorModel.mut_sequence self record orientation w = (Return out, w')
      /\ heap w' !! out = Some (Seq d')
      /\ length d' = length d /\ Forall is_nucleotide d')
  /\ (forall self out w',
      KernelDensityErrorModel.mut_sequence self record orientation w = (Return out, w') ->
      exists d', heap w' !! out = Some (Seq d')
        /\ length d' = length d /\ Forall is_nucleotide d')
  /\ (forall self matrix,
      subst_matrix_of self orientation = Some matrix ->
      (forall i nucl qual, zip d quals !! i = Some (nucl, qual) ->
         turn_draws (np_random w) matrix i nucl) ->
      exists out w',
        KernelDensityErrorModel.mut_sequence self record orientation w = (Return out, w')).
Proof.
  intros Hrec Hd Hq. split; [| split].
  - intros self.
    change (BasicErrorModel.mut_sequence self record orientation)
      with (mutate_copy BasicErrorModel.mut_body record).
    destruct (basic_for_zip_returns (length (heap w)) d quals (loop_start w d) Hd Hq
                (loop_start_copy w d)) as (w2 & Hloop).
    destruct (for_zip_touched _ _ _ 0 _ w2 d basic_turn_spec (loop_start_copy w d) Hloop)
      as (d' & Hm & Ht).
    exists (length (heap w2)), (set_heap (heap w2 ++ [Seq d']) w2), d'.
    rewrite (mutate_copy_run _ w record d quals Hrec), Hloop. split; [now apply toseq_run |].
    split; [world_simpl; now apply list_lookup_middle |].
    split; [apply Ht | now apply (touched_nucleotides _ _ d d' Ht)].
  - intros self out w' Hrun.
    destruct (select_subst_matrix_run self orientation w) as (sm & w0 & Hsel & Hheap).
    rewrite (kde_mut_sequence_run self record orientation w sm w0 Hsel) in Hrun.
    destruct (mutate_copy_returns _ w0 record d quals out w' (kde_turn_spec sm)
                (holds_record_heap w w0 record d quals Hheap Hrec) Hrun) as (d' & Hout & Ht).
    exists d'. split; [exact Hout |].
    split; [apply Ht | now apply (touched_nucleotides _ _ d d' Ht)].
  - intros self matrix Hsel Hdraws.
    rewrite (kde_mut_sequence_run self record orientation w (Some matrix) w
               (select_subst_matrix_valid self orientation matrix w Hsel)).
    destruct (kde_for_zip_returns matrix (length (heap w)) d quals (loop_start w d) Hq Hdraws
                (loop_start_copy w d)) as (w2 & Hloop).
    destruct (for_zip_touched _ _ _ 0 _ w2 d (kde_turn_spec (Some matrix))
                (loop_start_copy w d) Hloop) as (d' & Hm & _).
    rewrite (mutate_copy_run _ w record d quals Hrec), Hloop.
    rewrite (toseq_run _ d' w2 Hm). eauto.
Qed.

End Properties.

(** * No substitution of a base by itself *)

Section NoSelf.
Context `{Libm}.

(** C6: take the turn of position [i], where the loop reads the base
    [nucl] and the score [qual], and let [wi] be the world in which that turn
    starts. If its uniform draw exceeds [phred_to_prob(qual)] and
    [mut_sequence] returns, the returned sequence has at [i] a base other
    than [nucl]. This holds for both models. *)
Theorem substitution_changes_base (w : world) (record : loc) (d : list ascii)
    (quals : list Z) (orientation : string) (i : nat) (nucl : ascii) (qual : Z) :
  holds_record w record d quals ->
  zip d quals !! i = Some (nucl, qual) ->
  (forall self wi out w',
      for_zip (BasicErrorModel.mut_body (length (heap w))) 0 (take i (zip d quals))
        (loop_start w d) = (Return tt, wi) ->
      drawn_substitution wi qual = true ->
      BasicErrorModel.mut_sequence self record orientation w = (Return out, w') ->
      exists d' c, heap w' !! out = Some (Seq d') /\ d' !! i = Some c /\ c <> nucl)
  /\ (forall self subst_matrix w0 wi out w',
      KernelDensityErrorModel.select_subst_matrix self orientation w
        = (Return subst_matrix, w0) ->
      for_zip (KernelDensityErrorModel.mut_body subst_matrix (length (heap w))) 0
        (take i (zip d quals)) (loop_start w0 d) = (Return tt, wi) ->
      drawn_substitution wi qual = true ->
      KernelDensityErrorModel.mut_sequence self record orientation w = (Return out, w') ->
      exists d' c, heap w' !! out = Some (Seq d') /\ d' !! i = Some c /\ c <> nucl).
Proof.
  intros Hrec Hi.
  assert (Hdi : d !! i = Some nucl).
  { now apply lookup_zip_with_Some in Hi as (? & ? & [= <- <-] & ? & _). }
  assert (Hgen : forall body w0 wi out w',
            turn_spec body -> heap w0 = heap w ->
            for_zip (body (length (heap w))) 0 (take i (zip d quals)) (loop_start w0 d)
              = (Return tt, wi) ->
            drawn_substitution wi qual = true ->
            mutate_copy body record w0 = (Return out, w') ->
            exists d' c, heap w' !! out = Some (Seq d') /\ d' !! i = Some c /\ c <> nucl).
  { intros body w0 wi out w' Hbody Hheap Hpre Hdraw Hrun.
    pose proof (holds_record_heap w w0 record d quals Hheap Hrec) as Hrec0.
    rewrite (mutate_copy_run body w0 record d quals Hrec0), Hheap in Hrun.
    destruct (for_zip _ _ (zip d quals) _) as [[[] | e] w2] eqn:Hloop; [| discriminate].
    assert (Hcopy : heap (loop_start w0 d) !! length (heap w) = Some (MutableSeq d)).
    { rewrite <- Hheap. apply loop_start_copy. }
    destruct (for_zip_substituted body _ _ i nucl qual _ wi w2 d
                Hbody Hcopy Hdi Hi Hpre Hdraw Hloop) as (d' & c & Hm & _ & Hc & Hne).
    rewrite (toseq_run _ d' w2 Hm) in Hrun. injection Hrun as <- <-.
    exists d', c. split; [| now split]. world_simpl. now apply list_lookup_middle. }
  split.
  - intros self wi out w' Hpre Hdraw Hrun.
    now apply (Hgen BasicErrorModel.mut_body w wi out w' basic_turn_spec).
  - intros self sm w0 wi out w' Hsel Hpre Hdraw Hrun.
    rewrite (kde_mut_sequence_run self record orientation w sm w0 Hsel) in Hrun.
    destruct (select_subst_matrix_run self orientation w) as (sm' & w0' & Hsel' & Hheap).
    rewrite Hsel in Hsel'. injection Hsel' as <- <-.
    now apply (Hgen _ w0 wi out w' (kde_turn_spec sm)).
Qed.

End NoSelf.

(** * The record a method mutates a copy of *)

Section KeepsRecord.
Context `{Libm}.

(** C9: [mut_sequence] leaves every object of the store as it was: the
    record, the sequence and the annotation lists it refers to are among
    them. What it returns is a reference to a new object. This holds for
    both models, also when the call raises. *)
Theorem mut_sequence_keeps_record (w : world) (record : loc) (orientation : string) :
  (forall self,
      (forall l o, heap w !! l = Some o ->
         heap (BasicErrorModel.mut_sequence self record orientation w).2 !! l = Some o)
      /\ (forall out,
         (BasicErrorModel.mut_sequence self record orientation w).1 = Return out ->
         heap w !! out = None))
  /\ (forall self,
      (forall l o, heap w !! l = Some o ->
         heap (KernelDensityErrorModel.mut_sequence self record orientation w).2 !! l = Some o)
      /\ (forall out,
         (KernelDensityErrorModel.mut_sequence self record orientation w).1 = Return out ->
         heap w !! out = None)).
Proof.
  assert (Hgen : forall (m : M loc),
            heap w `prefix_of` heap (m w).2
            /\ (forall out, (m w).1 = Return out -> (length (heap w) <= out)%nat) ->
            (forall l o, heap w !! l = Some o -> heap (m w).2 !! l = Some o)
            /\ (forall out, (m w).1 = Return out -> heap w !! out = None)).
  { intros m [Hpre Hnew]. split.
    - intros l o Hl. eapply prefix_lookup_Some; eauto.
    - intros out Hout. apply lookup_ge_None. now apply Hnew. }
  split; intros self; apply Hgen.
  - change (BasicErrorModel.mut_sequence self record orientation)
      with (mutate_copy BasicErrorModel.mut_body record).
    apply (mutate_copy_frame (heap w)); [| reflexivity].
    intros. now apply basic_mut_body_frame.
  - destruct (select_subst_matrix_run self orientation w) as (sm & w0 & Hsel & Hheap).
    rewrite (kde_mut_sequence_run self record orientation w sm w0 Hsel), <- Hheap.
    apply (mutate_copy_frame (heap w0)); [| reflexivity].
    intros. now apply kde_mut_body_frame.
Qed.

End KeepsRecord.

(** * Orientation *)

Section Orientation.
Context `{Libm}.

(** C8: the basic model never looks at the orientation: with the same
    record and the same world (store and generators), two orientations
    give the same outcome and the same world, for [introduce_error_scores]
    and for [mut_sequence]. *)
Theorem basic_ignores_orientation (self : BasicErrorModel.t) (record : loc)
    (orientation orientation' : string) (w : world) :
  BasicErrorModel.introduce_error_scores self record orientation w
    = BasicErrorModel.introduce_error_scores self record orientation' w
  /\ BasicErrorModel.mut_sequence self record orientation w
    = BasicErrorModel.mut_sequence self record orientation' w.
Proof. split; reflexivity. Qed.

(** C3 (what the code does instead): with an orientation that is neither
    "forward" nor "reverse", [introduce_error_scores] of the kernel-density
    model prints a message and returns the record, nothing raised and
    nothing annotated; [mut_sequence] prints a message and goes on with its
    matrix unassigned, so that on a record with at least one scored letter
    it raises UnboundLocalError at the first turn, after the mutable copy
    was made. *)
Theorem bad_orientation_goes_on (self : KernelDensityErrorModel.t) (record : loc)
    (orientation : string) (w : world) :
  orientation <> "forward" -> orientation <> "reverse" ->
  KernelDensityErrorModel.introduce_error_scores self record orientation w
    = (Return record, printed "bad orientation. Fatal" w)
  /\ (forall d quals, holds_record w record d quals -> zip d quals <> [] ->
        KernelDensityErrorModel.mut_sequence self record orientation w
        = (Raise UnboundLocalError, loop_start (printed "this is bad" w) d)).
Proof.
  intros Hf Hr. split.
  - unfold KernelDensityErrorModel.introduce_error_scores, bind.
    now rewrite !decide_False by done.
  - intros d quals Hrec Hne.
    rewrite (kde_mut_sequence_run self record orientation w None (printed "this is bad" w)).
    + rewrite (mutate_copy_run _ _ record d quals) by exact Hrec.
      destruct (zip d quals) as [| [nucl qual] rest]; [done |]. reflexivity.
    + unfold KernelDensityErrorModel.select_subst_matrix.
      now rewrite !decide_False by done.
Qed.

End Orientation.

(** * The number of scores *)

Lemma list_comp_length {A B} (f : A -> outcome B) (l : list A) (l' : list B) :
  list_comp f l = Return l' -> length l' = length l.
Proof.
  revert l'. induction l as [| x l IH]; intros l'; simpl.
  - now intros [= <-].
  - destruct (f x) as [y | e]; [| discriminate].
    destruct (list_comp f l) as [ys | e]; [| discriminate].
    intros [= <-]. simpl. now rewrite (IH ys).
Qed.

Lemma list_comp_returns {A B} (f : A -> outcome B) (l : list A) :
  Forall (fun x => exists y, f x = Return y) l -> exists l', list_comp f l = Return l'.
Proof.
  induction 1 as [| x l [y Hy] _ [ys Hys]]; simpl; [eauto |].
  rewrite Hy, Hys. eauto.
Qed.

Lemma gen_phred_loop_length histograms :
  forall phred_list w l w',
  KernelDensityErrorModel.gen_phred_loop histograms phred_list w = (Return l, w') ->
  length l = (length phred_list + length histograms)%nat.
Proof.
  induction histograms as [| [values indices] rest IH]; intros phred_list w l w'; simpl.
  - intros [= <- _]. lia.
  - unfold bind. destruct (np_random_choice _ _ w) as [[x | e] w1]; [| discriminate].
    unfold lift. destruct (py_round x) as [q | e]; [| discriminate].
    intros Hrun. apply IH in Hrun. rewrite Hrun, length_app. simpl. lia.
Qed.

Lemma gen_phred_loop_returns histograms :
  forall phred_list w,
  draws_defined histograms w ->
  exists l w', KernelDensityErrorModel.gen_phred_loop histograms phred_list w = (Return l, w').
Proof.
  induction histograms as [| [values indices] rest IH]; intros phred_list w Hdef; simpl.
  - eauto.
  - destruct (Hdef 0%nat _ eq_refl) as [q Hq]. rewrite Nat.add_0_r in Hq.
    unfold draw_quality in Hq. unfold bind, np_random_choice at 1.
    destruct (choice_args_ok _ _); [| discriminate].
    destruct (_ !! _) as [x |]; [| discriminate].
    unfold lift. rewrite Hq. apply IH.
    intros i hist Hi. destruct (Hdef (S i) hist Hi) as [q' Hq'].
    exists q'. rewrite <- Hq'. world_simpl.
    now replace (np_calls (np_random w) + 1 + i)%nat with (np_calls (np_random w) + S i)%nat by lia.
Qed.

(** The two conditions of returning, as checks that compute. *)
Lemma Forall_returns_check {A B} (f : A -> outcome B) (l : list A) :
  forallb (fun x => is_return (f x)) l = true ->
  Forall (fun x => exists y, f x = Return y) l.
Proof.
  intros Hall. apply Forall_forall. intros x Hx.
  rewrite forallb_forall in Hall. specialize (Hall x (proj1 (list_elem_of_In _ _) Hx)).
  destruct (f x) as [y | e]; [eauto | discriminate].
Qed.

Lemma draws_defined_check histograms w :
  forallb (fun ih => is_return (draw_quality ih.2
                        (np_sample (np_random w) (np_calls (np_random w) + ih.1))))
          (zip (seq 0 (length histograms)) histograms) = true ->
  draws_defined histograms w.
Proof.
  intros Hall i hist Hi. rewrite forallb_forall in Hall.
  assert (Hin : (i, hist) ∈ zip (seq 0 (length histograms)) histograms).
  { apply list_elem_of_lookup. exists i. apply lookup_zip_with_Some.
    exists i, hist. split; [reflexivity |]. split; [| exact Hi].
    apply lookup_seq. split; [reflexivity | eapply lookup_lt_Some, Hi]. }
  specialize (Hall _ (proj1 (list_elem_of_In _ _) Hin)). simpl in Hall.
  destruct (draw_quality _ _) as [q | e]; [eauto | discriminate].
Qed.

Section Scores.
Context `{Libm}.

(** C7: the list [gen_phred_scores] returns has [read_length] scores. For
    the basic model, whose [read_length] is 125, and any mean quality:
    every list returned has that length, and one is returned whenever each
    clamped sample has a score. For the kernel-density model and an
    orientation "forward" or "reverse" whose histograms are as many as the
    loaded [read_length]: every list returned has that length, and one is
    returned whenever each histogram yields a score. *)
Theorem gen_phred_scores_length (w : world) :
  BasicErrorModel.read_length BasicErrorModel.init = 125
  /\ (forall (self : BasicErrorModel.t) (mean_quality : float),
        0 <= BasicErrorModel.read_length self ->
        let scores := BasicErrorModel.gen_phred_scores self mean_quality w in
        (forall l, scores.1 = Return l ->
           Z.of_nat (length l) = BasicErrorModel.read_length self)
        /\ (Forall (fun p => exists q, prob_to_phred p = Return q)
                   (basic_probabilities self mean_quality w) ->
            exists l, scores.1 = Return l))
  /\ (forall (self : KernelDensityErrorModel.t) orientation histograms,
        quality_hist self orientation = Some histograms ->
        Z.of_nat (length histograms) = KernelDensityErrorModel.read_length self ->
        let scores := KernelDensityErrorModel.gen_phred_scores self histograms w in
        (forall l, scores.1 = Return l ->
           Z.of_nat (length l) = KernelDensityErrorModel.read_length self)
        /\ (draws_defined histograms w -> exists l, scores.1 = Return l)).
Proof.
  split; [reflexivity |]. split.
  - intros self mean_quality Hlen scores. subst scores.
    unfold BasicErrorModel.gen_phred_scores, bind, np_random_normal, lift.
    destruct (Z.ltb_spec (BasicErrorModel.read_length self) 0) as [Hneg | _]; [lia |].
    rewrite map_map. fold (basic_probabilities self mean_quality w). simpl.
    split.
    + intros l Hl. apply list_comp_length in Hl.
      rewrite Hl. unfold basic_probabilities. rewrite length_map, length_seq. lia.
    + intros Hconv. now apply list_comp_returns.
  - intros self orientation histograms _ Hlen scores. subst scores.
    unfold KernelDensityErrorModel.gen_phred_scores. split.
    + intros l Hl.
      destruct (KernelDensityErrorModel.gen_phred_loop histograms [] w) as [r w'] eqn:Hrun.
      simpl in Hl. subst r. apply gen_phred_loop_length in Hrun. rewrite Hrun. simpl. lia.
    + intros Hdef. destruct (gen_phred_loop_returns histograms [] w Hdef) as (l & w' & Hrun).
      exists l. now rewrite Hrun.
Qed.

End Scores.

(** * A turn that keeps its base, a turn that raises *)

(** A loop whose turn at position [i] raises, raises there. *)
Lemma for_zip_raises_at body (pairs : list (ascii * Z)) i nucl qual w wi e we :
  pairs !! i = Some (nucl, qual) ->
  for_zip body 0 (take i pairs) w = (Return tt, wi) ->
  body i nucl qual wi = (Raise e, we) ->
  for_zip body 0 pairs w = (Raise e, we).
Proof.
  intros Hpi Hpre Hturn.
  assert (Hlen : length (take i pairs) = i).
  { apply length_take_le. apply lookup_lt_Some in Hpi. lia. }
  rewrite <- (take_drop_middle pairs i (nucl, qual) Hpi), for_zip_app, Hpre, Hlen.
  simpl. unfold bind. now rewrite Hturn.
Qed.

(** A letter that is no base has no entry in the table of the
    kernel-density model. *)
Lemma kde_choices_unknown (row : list Z) (nucl : ascii) :
  ~ is_nucleotide nucl ->
  KernelDensityErrorModel.subst_matrix_to_choices row !! nucl = None.
Proof.
  intros Hn.
  destruct (KernelDensityErrorModel.subst_matrix_to_choices row !! nucl)
    as [[labels probs] |] eqn:Hl; [| reflexivity].
  exfalso. apply Hn. unfold is_nucleotide, nucleotides.
  revert Hl. unfold KernelDensityErrorModel.subst_matrix_to_choices.
  destruct (decide (nucl = nucl_A)) as [-> | HA]; [set_solver |].
  destruct (decide (nucl = nucl_T)) as [-> | HT]; [set_solver |].
  destruct (decide (nucl = nucl_C)) as [-> | HC]; [set_solver |].
  destruct (decide (nucl = nucl_G)) as [-> | HG]; [set_solver |].
  rewrite !lookup_insert_ne, lookup_singleton_ne by done. discriminate.
Qed.

Section Turns.
Context `{Libm}.

(** The turn at position [i] does not substitute: the copy ends with the
    base it had there. *)
Lemma for_zip_kept body m pairs i nucl qual w wi w' t :
  turn_spec body ->
  heap w !! m = Some (MutableSeq t) ->
  t !! i = Some nucl ->
  pairs !! i = Some (nucl, qual) ->
  for_zip (body m) 0 (take i pairs) w = (Return tt, wi) ->
  drawn_substitution wi qual = false ->
  for_zip (body m) 0 pairs w = (Return tt, w') ->
  exists t', heap w' !! m = Some (MutableSeq t') /\ t' !! i = Some nucl.
Proof.
  intros Hbody Hm Hti Hpi Hpre Hdraw Hrun.
  assert (Hlen : length (take i pairs) = i).
  { apply length_take_le. apply lookup_lt_Some in Hpi. lia. }
  rewrite <- (take_drop_middle pairs i (nucl, qual) Hpi), for_zip_app, Hpre in Hrun.
  rewrite Hlen in Hrun. simpl in Hrun. unfold bind in Hrun.
  destruct (body m i nucl qual wi) as [[[] | e] w1] eqn:Hturn; [| discriminate].
  destruct (for_zip_touched body m _ 0 w wi t Hbody Hm Hpre) as (t1 & Hm1 & Ht1).
  rewrite Hlen in Ht1. destruct Ht1 as (Hlen1 & Hout1 & _).
  pose proof (Hbody m i nucl qual t1 wi Hm1) as Hpost.
  apply (wp_run _ _ _ _ _ Hturn) in Hpost. destruct Hpost as (t2 & Hm2 & Hsub).
  rewrite Hdraw in Hsub. subst t2.
  destruct (for_zip_touched body m _ (S i) w1 w' _ Hbody Hm2 Hrun) as (t3 & Hm3 & Ht3).
  destruct Ht3 as (Hlen3 & Hout3 & _).
  exists t3. split; [exact Hm3 |].
  rewrite Hout3 by lia. rewrite Hout1 by lia. exact Hti.
Qed.

(** A turn that substitutes has a probability to compare its draw with. *)
Lemma drawn_substitution_prob w qual :
  drawn_substitution w qual = true ->
  exists p, phred_to_prob qual = Return p
    /\ (p <? rand_float (py_random w) (rand_calls (py_random w)))%float = true.
Proof.
  unfold drawn_substitution. destruct (phred_to_prob qual) as [p | e]; [eauto | discriminate].
Qed.

(** The turns that raise: a letter without choices, a position without a
    row, a row without counts. *)
Lemma basic_turn_unknown_letter m position nucl qual w :
  drawn_substitution w qual = true ->
  ~ is_nucleotide nucl ->
  BasicErrorModel.mut_body m position nucl qual w = (Raise KeyError, py_tick w).
Proof.
  intros Hdraw Hn. destruct (drawn_substitution_prob w qual Hdraw) as (p & Hp & Hlt).
  unfold BasicErrorModel.mut_body, bind, random_random, lift. rewrite Hp, Hlt.
  unfold dict_getitem. rewrite basic_nucl_choices_lookup, decide_False by exact Hn.
  reflexivity.
Qed.

Lemma kde_turn_unknown_letter matrix m position nucl qual w :
  (position < length matrix)%nat ->
  drawn_substitution w qual = true ->
  ~ is_nucleotide nucl ->
  KernelDensityErrorModel.mut_body (Some matrix) m position nucl qual w
  = (Raise KeyError, py_tick w).
Proof.
  intros Hrow Hdraw Hn. destruct (drawn_substitution_prob w qual Hdraw) as (p & Hp & Hlt).
  apply lookup_lt_is_Some_2 in Hrow as [row Hrow].
  unfold KernelDensityErrorModel.mut_body, bind, ret, random_random, lift.
  rewrite Hrow, Hp, Hlt.
  unfold dict_getitem. rewrite kde_choices_unknown by exact Hn. reflexivity.
Qed.

Lemma kde_turn_no_row matrix m position nucl qual w :
  (length matrix <= position)%nat ->
  KernelDensityErrorModel.mut_body (Some matrix) m position nucl qual w
  = (Raise IndexError, w).
Proof.
  intros Hrow. apply lookup_ge_None in Hrow.
  unfold KernelDensityErrorModel.mut_body, bind, ret. now rewrite Hrow.
Qed.

Lemma kde_turn_zero_row matrix m position nucl qual row k w :
  matrix !! position = Some row ->
  length row = 16%nat ->
  base_row nucl = Some k ->
  row_counts row k = [0; 0; 0] ->
  drawn_substitution w qual = true ->
  KernelDensityErrorModel.mut_body (Some matrix) m position nucl qual w
  = (Raise ValueError, py_tick w).
Proof.
  intros Hrow Hlen Hk Hzero Hdraw.
  destruct (drawn_substitution_prob w qual Hdraw) as (p & Hp & Hlt).
  unfold KernelDensityErrorModel.mut_body, bind, ret, random_random, lift.
  rewrite Hrow, Hp, Hlt.
  unfold dict_getitem. rewrite (subst_matrix_to_choices_lookup row nucl k Hlen Hk), Hzero.
  change (normalized [0; 0; 0]) with [nan; nan; nan].
  unfold ret. simpl fst. simpl snd. now rewrite nan_weights_refused.
Qed.

(** [mutate_copy] when a turn raises. *)
Lemma mutate_copy_raises_at body w record d quals i nucl qual wi e we :
  holds_record w record d quals ->
  zip d quals !! i = Some (nucl, qual) ->
  for_zip (body (length (heap w))) 0 (take i (zip d quals)) (loop_start w d)
    = (Return tt, wi) ->
  body (length (heap w)) i nucl qual wi = (Raise e, we) ->
  mutate_copy body record w = (Raise e, we).
Proof.
  intros Hrec Hi Hpre Hturn.
  rewrite (mutate_copy_run body w record d quals Hrec).
  now rewrite (for_zip_raises_at _ _ i nucl qual _ wi e we Hi Hpre Hturn).
Qed.

(** [mutate_copy] when a turn keeps its base. *)
Lemma mutate_copy_kept body w record d quals i nucl qual wi out w' :
  turn_spec body ->
  holds_record w record d quals ->
  zip d quals !! i = Some (nucl, qual) ->
  for_zip (body (length (heap w))) 0 (take i (zip d quals)) (loop_start w d)
    = (Return tt, wi) ->
  drawn_substitution wi qual = false ->
  mutate_copy body record w = (Return out, w') ->
  exists d', heap w' !! out = Some (Seq d') /\ d' !! i = Some nucl.
Proof.
  intros Hbody Hrec Hi Hpre Hdraw Hrun.
  assert (Hdi : d !! i = Some nucl).
  { now apply lookup_zip_with_Some in Hi as (? & ? & [= <- <-] & ? & _). }
  rewrite (mutate_copy_run body w record d quals Hrec) in Hrun.
  destruct (for_zip _ _ (zip d quals) _) as [[[] | e] w2] eqn:Hloop; [| discriminate].
  destruct (for_zip_kept body _ _ i nucl qual _ wi w2 d
              Hbody (loop_start_copy w d) Hdi Hi Hpre Hdraw Hloop) as (d' & Hm & Hc).
  rewrite (toseq_run _ d' w2 Hm) in Hrun. injection Hrun as <- <-.
  exists d'. split; [| exact Hc]. world_simpl. now apply list_lookup_middle.
Qed.

(** X1: take the turn of position [i], where the loop reads the base
    [nucl] and the score [qual], and let [wi] be the world in which that turn
    starts. If its uniform draw does not exceed [phred_to_prob(qual)] and
    [mut_sequence] returns, the returned sequence still has [nucl] at [i]:
    a letter is changed only by a draw above its probability. This holds
    for both models, whatever the letter is. *)
Theorem unsubstituted_keeps_base (w : world) (record : loc) (d : list ascii)
    (quals : list Z) (orientation : string) (i : nat) (nucl : ascii) (qual : Z) :
  holds_record w record d quals ->
  zip d quals !! i = Some (nucl, qual) ->
  (forall self wi out w',
      for_zip (BasicErrorModel.mut_body (length (heap w))) 0 (take i (zip d quals))
        (loop_start w d) = (Return tt, wi) ->
      drawn_substitution wi qual = false ->
      BasicErrorModel.mut_sequence self record orientation w = (Return out, w') ->
      exists d', heap w' !! out = Some (Seq d') /\ d' !! i = Some nucl)
  /\ (forall self matrix wi out w',
      subst_matrix_of self orientation = Some matrix ->
      for_zip (KernelDensityErrorModel.mut_body (Some matrix) (length (heap w))) 0
        (take i (zip d quals)) (loop_start w d) = (Return tt, wi) ->
      drawn_substitution wi qual = false ->
      KernelDensityErrorModel.mut_sequence self record orientation w = (Return out, w') ->
      exists d', heap w' !! out = Some (Seq d') /\ d' !! i = Some nucl).
Proof.
  intros Hrec Hi. split.
  - intros self wi out w' Hpre Hdraw Hrun.
    exact (mutate_copy_kept BasicErrorModel.mut_body w record d quals i nucl qual wi out w'
             basic_turn_spec Hrec Hi Hpre Hdraw Hrun).
  - intros self matrix wi out w' Hsel Hpre Hdraw Hrun.
    rewrite (kde_mut_sequence_run self record orientation w (Some matrix) w
               (select_subst_matrix_valid self orientation matrix w Hsel)) in Hrun.
    exact (mutate_copy_kept _ w record d quals i nucl qual wi out w'
             (kde_turn_spec (Some matrix)) Hrec Hi Hpre Hdraw Hrun).
Qed.

(** X2: [zip] stops at the shorter of the letters and the scores. When the
    record has fewer scores than letters, every letter from position
    [len(quality_list)] on is in the returned sequence as it was, in both
    models. *)
Theorem unscored_letters_unchanged (w : world) (record : loc) (d : list ascii)
    (quals : list Z) (orientation : string) :
  holds_record w record d quals ->
  (forall self out w',
      BasicErrorModel.mut_sequence self record orientation w = (Return out, w') ->
      exists d', heap w' !! out = Some (Seq d')
        /\ forall j, (length quals <= j)%nat -> d' !! j = d !! j)
  /\ (forall self out w',
      KernelDensityErrorModel.mut_sequence self record orientation w = (Return out, w') ->
      exists d', heap w' !! out = Some (Seq d')
        /\ forall j, (length quals <= j)%nat -> d' !! j = d !! j).
Proof.
  intros Hrec.
  assert (Hgen : forall body w0 out w',
            turn_spec body -> heap w0 = heap w ->
            mutate_copy body record w0 = (Return out, w') ->
            exists d', heap w' !! out = Some (Seq d')
              /\ forall j, (length quals <= j)%nat -> d' !! j = d !! j).
  { intros body w0 out w' Hbody Hheap Hrun.
    destruct (mutate_copy_returns body w0 record d quals out w' Hbody
                (holds_record_heap w w0 record d quals Hheap Hrec) Hrun)
      as (d' & Hout & _ & Hfar & _).
    exists d'. split; [exact Hout |].
    intros j Hj. apply Hfar. right. rewrite length_zip. lia. }
  split.
  - intros self out w' Hrun.
    exact (Hgen BasicErrorModel.mut_body w out w' basic_turn_spec eq_refl Hrun).
  - intros self out w' Hrun.
    destruct (select_subst_matrix_run self orientation w) as (sm & w0 & Hsel & Hheap).
    rewrite (kde_mut_sequence_run self record orientation w sm w0 Hsel) in Hrun.
    exact (Hgen _ w0 out w' (kde_turn_spec sm) Hheap Hrun).
Qed.

(** X3: on a record without letters, or whose list of scores is empty,
    [mut_sequence] returns a new sequence with the same letters and takes no
    draw from either generator. This holds for both models and for every
    orientation: the kernel-density model never reaches its unassigned
    matrix when there is no turn. *)
Theorem empty_input_copy (w : world) (record : loc) (d : list ascii) (quals : list Z)
    (orientation : string) :
  holds_record w record d quals ->
  d = [] \/ quals = [] ->
  (forall self, exists out w',
      BasicErrorModel.mut_sequence self record orientation w = (Return out, w')
      /\ heap w' !! out = Some (Seq d)
      /\ py_random w' = py_random w /\ np_random w' = np_random w)
  /\ (forall self, exists out w',
      KernelDensityErrorModel.mut_sequence self record orientation w = (Return out, w')
      /\ heap w' !! out = Some (Seq d)
      /\ py_random w' = py_random w /\ np_random w' = np_random w).
Proof.
  intros Hrec Hempty.
  assert (Hzip : zip d quals = []).
  { destruct Hempty as [-> | ->]; [reflexivity | now destruct d]. }
  assert (Hgen : forall body w0,
            heap w0 = heap w -> py_random w0 = py_random w -> np_random w0 = np_random w ->
            exists out w',
              mutate_copy body record w0 = (Return out, w')
              /\ heap w' !! out = Some (Seq d)
              /\ py_random w' = py_random w /\ np_random w' = np_random w).
  { intros body w0 Hheap Hpy Hnp.
    rewrite (mutate_copy_run body w0 record d quals
               (holds_record_heap w w0 record d quals Hheap Hrec)), Hzip.
    simpl. unfold ret. rewrite (toseq_run _ d _ (loop_start_copy w0 d)).
    eexists _, _. split; [reflexivity |]. world_simpl.
    split; [now apply list_lookup_middle | now split]. }
  split; intros self.
  - exact (Hgen BasicErrorModel.mut_body w eq_refl eq_refl eq_refl).
  - assert (Hsel : exists sm w0,
              KernelDensityErrorModel.select_subst_matrix self orientation w = (Return sm, w0)
              /\ heap w0 = heap w /\ py_random w0 = py_random w /\ np_random w0 = np_random w).
    { unfold KernelDensityErrorModel.select_subst_matrix. repeat case_decide; eauto 10. }
    destruct Hsel as (sm & w0 & Hsel & Hheap & Hpy & Hnp).
    rewrite (kde_mut_sequence_run self record orientation w sm w0 Hsel).
    now apply Hgen.
Qed.

(** X4: on a record that has no "phred_quality" annotation, [mut_sequence]
    raises KeyError in both models, for every orientation, when the
    mutable copy of the sequence was already made; nothing else has changed
    in the store. *)
Theorem unscored_record_key_error (w : world) (record s : loc)
    (ann : gmap string loc) (d : list ascii) (orientation : string) :
  heap w !! record = Some (SeqRecord s ann) ->
  heap w !! s = Some (Seq d) ->
  ann !! "phred_quality" = None ->
  (forall self,
      BasicErrorModel.mut_sequence self record orientation w
      = (Raise KeyError, loop_start w d))
  /\ (forall self,
      (KernelDensityErrorModel.mut_sequence self record orientation w).1 = Raise KeyError
      /\ heap (KernelDensityErrorModel.mut_sequence self record orientation w).2
         = (heap w ++ [MutableSeq d])%list).
Proof.
  intros Hr Hs Ha.
  assert (Hgen : forall body w0, heap w0 = heap w ->
            mutate_copy body record w0 = (Raise KeyError, loop_start w0 d)).
  { intros body w0 Hheap. unfold mutate_copy, bind at 1.
    unfold get_seq, bind, deref. rewrite Hheap, Hr. simpl.
    unfold tomutable, bind, deref. rewrite Hheap, Hs. simpl.
    fold (loop_start w0 d).
    assert (Hr1 : heap (loop_start w0 d) !! record = Some (SeqRecord s ann)).
    { unfold loop_start. world_simpl. rewrite Hheap. now apply lookup_app_l_Some. }
    unfold get_letter_annotation, bind, deref. rewrite Hr1, Ha. reflexivity. }
  split.
  - intros self. exact (Hgen BasicErrorModel.mut_body w eq_refl).
  - intros self.
    destruct (select_subst_matrix_run self orientation w) as (sm & w0 & Hsel & Hheap).
    rewrite (kde_mut_sequence_run self record orientation w sm w0 Hsel).
    rewrite (Hgen _ w0 Hheap). split; [reflexivity |].
    unfold loop_start. world_simpl. now rewrite Hheap.
Qed.

(** X5: a letter that is none of A, T, C, G has no entry in either table of
    choices. When the turn of such a letter draws above the probability of
    its score, [mut_sequence] raises KeyError at that turn, after the draw
    was taken: in the basic model, and in the kernel-density model when the
    matrix has a row for the position. *)
Theorem unknown_letter_key_error (w : world) (record : loc) (d : list ascii)
    (quals : list Z) (orientation : string) (i : nat) (nucl : ascii) (qual : Z) :
  holds_record w record d quals ->
  zip d quals !! i = Some (nucl, qual) ->
  ~ is_nucleotide nucl ->
  (forall self wi,
      for_zip (BasicErrorModel.mut_body (length (heap w))) 0 (take i (zip d quals))
        (loop_start w d) = (Return tt, wi) ->
      drawn_substitution wi qual = true ->
      BasicErrorModel.mut_sequence self record orientation w
      = (Raise KeyError, py_tick wi))
  /\ (forall self matrix wi,
      subst_matrix_of self orientation = Some matrix ->
      (i < length matrix)%nat ->
      for_zip (KernelDensityErrorModel.mut_body (Some matrix) (length (heap w))) 0
        (take i (zip d quals)) (loop_start w d) = (Return tt, wi) ->
      drawn_substitution wi qual = true ->
      KernelDensityErrorModel.mut_sequence self record orientation w
      = (Raise KeyError, py_tick wi)).
Proof.
  intros Hrec Hi Hn. split.
  - intros self wi Hpre Hdraw.
    apply (mutate_copy_raises_at BasicErrorModel.mut_body w record d quals i nucl qual wi
             KeyError (py_tick wi) Hrec Hi Hpre).
    now apply basic_turn_unknown_letter.
  - intros self matrix wi Hsel Hrow Hpre Hdraw.
    rewrite (kde_mut_sequence_run self record orientation w (Some matrix) w
               (select_subst_matrix_valid self orientation matrix w Hsel)).
    apply (mutate_copy_raises_at _ w record d quals i nucl qual wi
             KeyError (py_tick wi) Hrec Hi Hpre).
    now apply kde_turn_unknown_letter.
Qed.

(** X6: when the substitution matrix of the orientation has fewer rows
    than the loop has turns, [mut_sequence] of the kernel-density model
    never returns; if the turns that have a row return, the turn after the
    last row raises IndexError, before it takes any draw. *)
Theorem short_matrix_index_error (w : world) (record : loc) (d : list ascii)
    (quals : list Z) (orientation : string) (self : KernelDensityErrorModel.t)
    (matrix : list (list Z)) :
  holds_record w record d quals ->
  subst_matrix_of self orientation = Some matrix ->
  (length matrix < length (zip d quals))%nat ->
  is_return (KernelDensityErrorModel.mut_sequence self record orientation w).1 = false
  /\ (forall wi,
      for_zip (KernelDensityErrorModel.mut_body (Some matrix) (length (heap w))) 0
        (take (length matrix) (zip d quals)) (loop_start w d) = (Return tt, wi) ->
      KernelDensityErrorModel.mut_sequence self record orientation w
      = (Raise IndexError, wi)).
Proof.
  intros Hrec Hsel Hshort.
  rewrite (kde_mut_sequence_run self record orientation w (Some matrix) w
             (select_subst_matrix_valid self orientation matrix w Hsel)).
  destruct (lookup_lt_is_Some_2 _ _ Hshort) as [[nucl qual] Hi].
  assert (Hat : forall wi,
            for_zip (KernelDensityErrorModel.mut_body (Some matrix) (length (heap w))) 0
              (take (length matrix) (zip d quals)) (loop_start w d) = (Return tt, wi) ->
            mutate_copy (KernelDensityErrorModel.mut_body (Some matrix)) record w
            = (Raise IndexError, wi)).
  { intros wi Hpre.
    apply (mutate_copy_raises_at _ w record d quals (length matrix) nucl qual wi
             IndexError wi Hrec Hi Hpre).
    now apply kde_turn_no_row. }
  split; [| exact Hat].
  destruct (for_zip (KernelDensityErrorModel.mut_body (Some matrix) (length (heap w))) 0
              (take (length matrix) (zip d quals)) (loop_start w d))
    as [[[] | e] wi] eqn:Hpre.
  - now rewrite (Hat wi eq_refl).
  - rewrite (mutate_copy_run _ w record d quals Hrec).
    rewrite <- (take_drop (length matrix) (zip d quals)) at 1.
    now rewrite for_zip_app, Hpre.
Qed.

(** X7: in the kernel-density model, when the turn at position [i] draws
    above the probability of its score and the three counts read for its
    base in the row of the position are all zero, [mut_sequence] raises
    ValueError: [numpy.random.choice] refuses the weights, which are
    not numbers. *)
Theorem zero_row_value_error (w : world) (record : loc) (d : list ascii)
    (quals : list Z) (orientation : string) (self : KernelDensityErrorModel.t)
    (matrix : list (list Z)) (i : nat) (nucl : ascii) (qual : Z) (row : list Z) (k : nat)
    (wi : world) :
  holds_record w record d quals ->
  subst_matrix_of self orientation = Some matrix ->
  zip d quals !! i = Some (nucl, qual) ->
  matrix !! i = Some row ->
  length row = 16%nat ->
  base_row nucl = Some k ->
  row_counts row k = [0; 0; 0] ->
  for_zip (KernelDensityErrorModel.mut_body (Some matrix) (length (heap w))) 0
    (take i (zip d quals)) (loop_start w d) = (Return tt, wi) ->
  drawn_substitution wi qual = true ->
  KernelDensityErrorModel.mut_sequence self record orientation w
  = (Raise ValueError, py_tick wi).
Proof.
  intros Hrec Hsel Hi Hrow Hlen Hk Hzero Hpre Hdraw.
  rewrite (kde_mut_sequence_run self record orientation w (Some matrix) w
             (select_subst_matrix_valid self orientation matrix w Hsel)).
  apply (mutate_copy_raises_at _ w record d quals i nucl qual wi
           ValueError (py_tick wi) Hrec Hi Hpre).
  now apply (kde_turn_zero_row matrix _ i nucl qual row k wi).
Qed.

End Turns.

(** * What the loop reads of the matrix *)

(** Loops whose bodies agree on every turn agree. *)
Lemma for_zip_ext body body' (pairs : list (ascii * Z)) :
  forall position w,
  (forall k nucl qual w, pairs !! k = Some (nucl, qual) ->
     body (position + k)%nat nucl qual w = body' (position + k)%nat nucl qual w) ->
  for_zip body position pairs w = for_zip body' position pairs w.
Proof.
  induction pairs as [| [nucl qual] rest IH]; intros position w Hbody; [reflexivity |].
  simpl. unfold bind.
  pose proof (Hbody 0%nat nucl qual w eq_refl) as H0. rewrite Nat.add_0_r in H0.
  rewrite H0. destruct (body' position nucl qual w) as [[[] | e] w1]; [| reflexivity].
  apply IH. intros k n q w0 Hk.
  replace (S position + k)%nat with (position + S k)%nat by lia.
  exact (Hbody (S k) n q w0 Hk).
Qed.

Section Reads.
Context `{Libm}.

Lemma kde_mut_body_row_counts matrix matrix' m position nucl qual row row' k w :
  matrix !! position = Some row ->
  matrix' !! position = Some row' ->
  length row = 16%nat -> length row' = 16%nat ->
  base_row nucl = Some k ->
  row_counts row k = row_counts row' k ->
  KernelDensityErrorModel.mut_body (Some matrix) m position nucl qual w
  = KernelDensityErrorModel.mut_body (Some matrix') m position nucl qual w.
Proof.
  intros Hrow Hrow' Hlen Hlen' Hk Hsame.
  unfold KernelDensityErrorModel.mut_body, bind, ret. rewrite Hrow, Hrow'.
  destruct (random_random w) as [[r | e] w1]; [| reflexivity].
  unfold lift. destruct (phred_to_prob qual) as [p | e]; [| reflexivity].
  destruct (p <? r)%float; [| reflexivity].
  unfold dict_getitem.
  rewrite (subst_matrix_to_choices_lookup row nucl k Hlen Hk).
  rewrite (subst_matrix_to_choices_lookup row' nucl k Hlen' Hk).
  now rewrite Hsame.
Qed.

(** X8: [mut_sequence] of the kernel-density model reads of the matrix, at
    each position, only the three counts of the base that stands there. Two
    profiles whose matrices have 16-element rows that agree on these counts
    give the same outcome and the same world, whatever their other entries
    and fields are. *)
Theorem kde_mut_sequence_reads_row_counts (w : world) (record : loc) (d : list ascii)
    (quals : list Z) (orientation : string) (self self' : KernelDensityErrorModel.t)
    (matrix matrix' : list (list Z)) :
  holds_record w record d quals ->
  subst_matrix_of self orientation = Some matrix ->
  subst_matrix_of self' orientation = Some matrix' ->
  (forall i nucl qual, zip d quals !! i = Some (nucl, qual) ->
     exists row row' k,
       matrix !! i = Some row /\ matrix' !! i = Some row'
       /\ length row = 16%nat /\ length row' = 16%nat
       /\ base_row nucl = Some k
       /\ row_counts row k = row_counts row' k) ->
  KernelDensityErrorModel.mut_sequence self record orientation w
  = KernelDensityErrorModel.mut_sequence self' record orientation w.
Proof.
  intros Hrec Hsel Hsel' Hsame.
  rewrite (kde_mut_sequence_run self record orientation w (Some matrix) w
             (select_subst_matrix_valid self orientation matrix w Hsel)).
  rewrite (kde_mut_sequence_run self' record orientation w (Some matrix') w
             (select_subst_matrix_valid self' orientation matrix' w Hsel')).
  rewrite !(mutate_copy_run _ w record d quals Hrec).
  rewrite (for_zip_ext _ (KernelDensityErrorModel.mut_body (Some matrix') (length (heap w))));
    [reflexivity |].
  intros i nucl qual w0 Hi. simpl.
  destruct (Hsame i nucl qual Hi) as (row & row' & k & Hrow & Hrow' & Hlen & Hlen' & Hk & Hc).
  now apply (kde_mut_body_row_counts matrix matrix' _ i nucl qual row row' k).
Qed.

End Reads.

(** * The draws a run of [mut_sequence] takes *)

Lemma changed_refl d : changed d d = 0%nat.
Proof.
  unfold changed. induction d as [| x d IH]; [reflexivity |].
  simpl. rewrite filter_cons_False by (simpl; tauto). exact IH.
Qed.

Lemma changed_insert d : forall t k nucl c,
  d !! k = Some nucl -> t !! k = Some nucl -> c <> nucl ->
  changed d (<[k := c]> t) = S (changed d t).
Proof.
  unfold changed. induction d as [| x d IH]; intros t k nucl c Hd Ht Hc; [done |].
  destruct t as [| y t]; [done |].
  destruct k as [| k]; simpl in *.
  - injection Hd as ->. injection Ht as ->.
    rewrite filter_cons_True by (simpl; congruence).
    now rewrite filter_cons_False by (simpl; tauto).
  - destruct (decide (x = y)) as [-> | Hne].
    + rewrite !filter_cons_False by (simpl; tauto). now apply (IH t k nucl c).
    + rewrite !filter_cons_True by (simpl; congruence). simpl.
      f_equal. now apply (IH t k nucl c).
Qed.

(** [numpy.random.choice] takes one sample when it returns, touches
    nothing else, and returns one of the labels. *)
Lemma wp_np_random_choice_sample {A} (a : list A) (p : list float) Q w :
  (forall c, c ∈ a -> Q (Return c) (np_advance 1 w)) ->
  (forall e w', Q (Raise e) w') ->
  wp (np_random_choice a p) Q w.
Proof.
  intros HQ He. unfold wp, np_random_choice.
  destruct (choice_args_ok a p); [| apply He].
  destruct (a !! _) as [x |] eqn:Hx; simpl; [| apply He].
  apply HQ. eapply list_elem_of_lookup_2, Hx.
Qed.

Section Draws.
Context `{Libm}.

Lemma basic_loop_draws m d quals w0 :
  heap w0 !! m = Some (MutableSeq d) ->
  wp (for_zip (BasicErrorModel.mut_body m) 0 (zip d quals))
     (fun r w => r = Return tt ->
        loop_state m d w0 (fun k t => (k + changed d t)%nat) (fun _ _ => 0%nat)
          (length (zip d quals)) w) w0.
Proof.
  intros Hm.
  apply (wp_for_zip _ (loop_state m d w0 (fun k t => (k + changed d t)%nat)
                         (fun _ _ => 0%nat))).
  - exists d. rewrite changed_refl. repeat split; try done.
    + unfold py_advance. world_simpl. destruct (py_random w0). simpl. f_equal. lia.
    + unfold np_advance. world_simpl. destruct (np_random w0). simpl. f_equal. lia.
  - intros k nucl qual w Hk (t & Hmt & Hlen & Hrest & Hpy & Hnp & Hout). simpl in *.
    apply lookup_zip_with_Some in Hk as (nucl' & qual' & [= <- <-] & Hdk & Hqk).
    assert (Htk : t !! k = Some nucl) by now rewrite Hrest.
    unfold BasicErrorModel.mut_body.
    apply wp_bind, wp_random_random; cbv beta iota.
    apply wp_bind, wp_lift. destruct (phred_to_prob qual) as [p | e]; [| discriminate].
    destruct (_ <? _)%float.
    + apply wp_bind, wp_dict_getitem. rewrite basic_nucl_choices_lookup.
      case_decide as Hn; [| discriminate].
      apply wp_bind, wp_random_choice_total; [now apply other_bases_nonempty |].
      intros c Hc. apply other_bases_spec in Hc as [_ Hc].
      apply wp_setitem. world_simpl. rewrite Hmt.
      case_decide as Hpos; [| discriminate].
      exists (<[k := c]> t). world_simpl.
      split; [apply list_lookup_insert_eq; eapply lookup_lt_Some, Hmt |].
      split; [now rewrite length_insert |].
      split; [intros j Hj; rewrite list_lookup_insert_ne by lia; apply Hrest; lia |].
      rewrite (changed_insert d t k nucl c Hdk Htk Hc).
      split; [moved_on Hpy |]. now split.
    + apply wp_ret. exists t. world_simpl.
      split; [exact Hmt |]. split; [exact Hlen |].
      split; [intros j Hj; apply Hrest; lia |].
      split; [moved_on Hpy |]. now split.
  - intros w Hw _. exact Hw.
Qed.

Lemma kde_loop_draws matrix m d quals w0 :
  heap w0 !! m = Some (MutableSeq d) ->
  wp (for_zip (KernelDensityErrorModel.mut_body (Some matrix) m) 0 (zip d quals))
     (fun r w => r = Return tt ->
        loop_state m d w0 (fun k _ => k) (fun _ t => changed d t)
          (length (zip d quals)) w) w0.
Proof.
  intros Hm.
  apply (wp_for_zip _ (loop_state m d w0 (fun k _ => k) (fun _ t => changed d t))).
  - exists d. rewrite changed_refl. repeat split; try done.
    + unfold py_advance. world_simpl. destruct (py_random w0). simpl. f_equal. lia.
    + unfold np_advance. world_simpl. destruct (np_random w0). simpl. f_equal. lia.
  - intros k nucl qual w Hk (t & Hmt & Hlen & Hrest & Hpy & Hnp & Hout). simpl in *.
    apply lookup_zip_with_Some in Hk as (nucl' & qual' & [= <- <-] & Hdk & Hqk).
    assert (Htk : t !! k = Some nucl) by now rewrite Hrest.
    unfold KernelDensityErrorModel.mut_body.
    apply wp_bind, wp_ret, wp_bind.
    destruct (matrix !! k) as [row |]; [| discriminate].
    apply wp_ret, wp_bind, wp_random_random; cbv beta iota.
    apply wp_bind, wp_lift. destruct (phred_to_prob qual) as [p | e]; [| discriminate].
    destruct (_ <? _)%float.
    + apply wp_bind, wp_dict_getitem.
      destruct (_ !! nucl) as [[labels probs] |] eqn:Hl; [| discriminate].
      apply kde_choices_labels in Hl as ->.
      apply wp_bind, wp_np_random_choice_sample; [| discriminate].
      intros c Hc. apply other_bases_spec in Hc as [_ Hc].
      apply wp_setitem. world_simpl. rewrite Hmt.
      case_decide as Hpos; [| discriminate].
      exists (<[k := c]> t). world_simpl.
      split; [apply list_lookup_insert_eq; eapply lookup_lt_Some, Hmt |].
      split; [now rewrite length_insert |].
      split; [intros j Hj; rewrite list_lookup_insert_ne by lia; apply Hrest; lia |].
      rewrite (changed_insert d t k nucl c Hdk Htk Hc).
      split; [moved_on Hpy |]. split; [moved_on Hnp | exact Hout].
    + apply wp_ret. exists t. world_simpl.
      split; [exact Hmt |]. split; [exact Hlen |].
      split; [intros j Hj; apply Hrest; lia |].
      split; [moved_on Hpy |]. now split.
  - intros w Hw _. exact Hw.
Qed.

(** What [mutate_copy] returns after a loop that keeps account. *)
Lemma mutate_copy_draws body w record d quals pulls picks out w' :
  holds_record w record d quals ->
  wp (for_zip (body (length (heap w))) 0 (zip d quals))
     (fun r w2 => r = Return tt ->
        loop_state (length (heap w)) d (loop_start w d) pulls picks
          (length (zip d quals)) w2) (loop_start w d) ->
  mutate_copy body record w = (Return out, w') ->
  exists d', heap w' !! out = Some (Seq d')
    /\ py_random w' = py_random (py_advance (pulls (length d `min` length quals)%nat d') w)
    /\ np_random w' = np_random (np_advance (picks (length d `min` length quals)%nat d') w)
    /\ stdout w' = stdout w.
Proof.
  intros Hrec Hloop Hrun.
  rewrite (mutate_copy_run body w record d quals Hrec) in Hrun.
  unfold wp in Hloop.
  destruct (for_zip _ _ _ _) as [[[] | e] w2]; [| discriminate].
  destruct (Hloop eq_refl) as (t & Hmt & _ & _ & Hpy & Hnp & Hout).
  rewrite (toseq_run _ t w2 Hmt) in Hrun. injection Hrun as <- <-.
  rewrite length_zip in Hpy, Hnp.
  exists t. world_simpl. split; [now apply list_lookup_middle |]. now repeat split.
Qed.

(** X9: when [mut_sequence] of the basic model returns, it has called
    Python's [random] once for every turn (a turn for each letter that has
    a score) and once more for every base it changed; it has not touched
    numpy's generator and has printed nothing. *)
Theorem basic_mut_sequence_draws (w : world) (record : loc) (d : list ascii)
    (quals : list Z) (orientation : string) (self : BasicErrorModel.t)
    (out : loc) (w' : world) :
  holds_record w record d quals ->
  BasicErrorModel.mut_sequence self record orientation w = (Return out, w') ->
  exists d', heap w' !! out = Some (Seq d')
    /\ py_random w'
       = py_random (py_advance ((length d `min` length quals) + changed d d') w)
    /\ np_random w' = np_random w
    /\ stdout w' = stdout w.
Proof.
  intros Hrec Hrun.
  destruct (mutate_copy_draws BasicErrorModel.mut_body w record d quals
              (fun k t => (k + changed d t)%nat) (fun _ _ => 0%nat) out w' Hrec
              (basic_loop_draws _ d quals _ (loop_start_copy w d)) Hrun)
    as (d' & Hout & Hpy & Hnp & Hstd).
  exists d'. repeat split; try done.
  rewrite Hnp. unfold np_advance. world_simpl. destruct (np_random w). simpl. f_equal. lia.
Qed.

(** X10: when [mut_sequence] of the kernel-density model returns for the
    orientation "forward" or "reverse", it has called Python's [random]
    exactly once for every turn and numpy's generator exactly once for every
    base it changed, and has printed nothing. *)
Theorem kde_mut_sequence_draws (w : world) (record : loc) (d : list ascii)
    (quals : list Z) (orientation : string) (self : KernelDensityErrorModel.t)
    (matrix : list (list Z)) (out : loc) (w' : world) :
  holds_record w record d quals ->
  subst_matrix_of self orientation = Some matrix ->
  KernelDensityErrorModel.mut_sequence self record orientation w = (Return out, w') ->
  exists d', heap w' !! out = Some (Seq d')
    /\ py_random w' = py_random (py_advance (length d `min` length quals) w)
    /\ np_random w' = np_random (np_advance (changed d d') w)
    /\ stdout w' = stdout w.
Proof.
  intros Hrec Hsel Hrun.
  rewrite (kde_mut_sequence_run self record orientation w (Some matrix) w
             (select_subst_matrix_valid self orientation matrix w Hsel)) in Hrun.
  exact (mutate_copy_draws _ w record d quals (fun k _ => k) (fun _ t => changed d t)
           out w' Hrec (kde_loop_draws matrix _ d quals _ (loop_start_copy w d)) Hrun).
Qed.

End Draws.

(** * The table of choices and the length of the vector *)

(** The weights of a base for a vector of any length. *)
Lemma kde_choices_weights (v : list Z) (b : ascii) (k : nat) :
  base_row b = Some k ->
  exists probs,
    KernelDensityErrorModel.subst_matrix_to_choices v !! b = Some (other_bases b, probs)
    /\ length probs = if decide (k = 3%nat) then (length v - 13)%nat
                      else (3 `min` (length v - (4 * k + 1)))%nat.
Proof.
  intros Hk.
  destruct (base_row_cases b k Hk) as [[-> ->] | [[-> ->] | [[-> ->] | [-> ->]]]];
    (eexists; split; [reflexivity |]);
    rewrite length_map; unfold py_slice, py_slice_from;
    rewrite ?length_take, length_drop; simpl; lia.
Qed.

(** X11: [subst_matrix_to_choices] gives each of the four bases its three
    other bases with three weights exactly when the vector has 16 entries:
    on a shorter vector a slice stops short, and the slice [13:] of G takes
    every entry after the 16th. *)
Theorem subst_matrix_to_choices_shape (v : list Z) :
  (forall b, is_nucleotide b ->
     exists probs, KernelDensityErrorModel.subst_matrix_to_choices v !! b
                   = Some (other_bases b, probs)
                   /\ length probs = 3%nat)
  <-> length v = 16%nat.
Proof.
  split.
  - intros Hall.
    destruct (Hall nucl_G) as (probs & Hg & Hlen);
      [unfold is_nucleotide, nucleotides; set_solver |].
    destruct (Hall nucl_C) as (probs' & Hc & Hlen');
      [unfold is_nucleotide, nucleotides; set_solver |].
    destruct (kde_choices_weights v nucl_G 3 eq_refl) as (p & Hp & Hpl).
    destruct (kde_choices_weights v nucl_C 2 eq_refl) as (p' & Hp' & Hpl').
    rewrite Hg in Hp. rewrite Hc in Hp'. injection Hp as <-. injection Hp' as <-.
    simpl in Hpl, Hpl'. lia.
  - intros Hlen b Hb.
    unfold is_nucleotide, nucleotides in Hb.
    rewrite !elem_of_cons, elem_of_nil in Hb.
    assert (Hk : exists k, base_row b = Some k).
    { destruct Hb as [-> | [-> | [-> | [-> | []]]]]; eauto. }
    destruct Hk as [k Hk].
    destruct (kde_choices_weights v b k Hk) as (probs & Hp & Hpl).
    exists probs. split; [exact Hp |]. rewrite Hpl, Hlen.
    destruct (base_row_cases b k Hk) as [[_ ->] | [[_ ->] | [[_ ->] | [_ ->]]]];
      reflexivity.
Qed.

(** * Floats that are not numbers *)

Lemma is_nan_spec (x : float) : is_nan x = true <-> Prim2SF x = S754_nan.
Proof.
  unfold is_nan. rewrite FloatAxioms.eqb_spec. unfold SFeqb.
  destruct (Prim2SF x) as [s | s | | s m e]; simpl; try destruct s; simpl;
    rewrite ?Z.compare_refl, ?Pos.compare_refl; simpl; split; congruence.
Qed.

Lemma is_nan_add_l (x y : float) : is_nan x = true -> is_nan (x + y) = true.
Proof.
  rewrite !is_nan_spec, FloatAxioms.add_spec. now intros ->.
Qed.

Lemma kahan_loop_nan (l : list float) : forall sum c,
  is_nan sum = true -> is_nan (kahan_loop sum c l) = true.
Proof.
  induction l as [| x l IH]; intros sum c Hnan; simpl; [exact Hnan |].
  apply IH. now apply is_nan_add_l.
Qed.

Lemma py_sum_zeros (l : list Z) : Forall (eq 0) l -> py_sum l = 0.
Proof.
  unfold py_sum. induction 1 as [| x l <- _ IH]; [reflexivity | exact IH].
Qed.

(** * Scores of the kernel-density model *)

(** The first two checks of numpy: something to choose from, and as many
    weights as choices. *)
Lemma sizes_refused (n k : nat) :
  k <> S n \/ n = 0%nat ->
  negb (Nat.eqb (k - 1) 0) && Nat.eqb n (k - 1) = false.
Proof.
  intros Hnk. destruct (Nat.eqb_spec (k - 1) 0) as [| Hne]; [reflexivity |].
  destruct (Nat.eqb_spec n (k - 1)) as [Heq |]; [lia | reflexivity].
Qed.

(** numpy refuses to draw from a degenerate histogram. *)
Lemma degenerate_refused (values : list Z) (indices : list float) :
  degenerate (values, indices) ->
  choice_args_ok (py_slice_from indices 1)
    (map (fun v => np_true_divide v (py_sum values)) values) = false.
Proof.
  unfold degenerate, choice_args_ok, py_slice_from. cbn [fst snd].
  rewrite length_map, length_drop. intros [Hlen | Hzero].
  - now rewrite sizes_refused by now left.
  - rewrite (py_sum_zeros values Hzero).
    destruct Hzero as [| v values <- Hzero].
    + now rewrite sizes_refused by now right.
    + cbn [map]. unfold kahan_sum.
      rewrite kahan_loop_nan by reflexivity. cbn [negb].
      now rewrite !andb_false_r.
Qed.

Lemma np_advance_add (n k : nat) (w : world) :
  np_advance k (np_advance n w) = np_advance (n + k) w.
Proof.
  unfold np_advance, set_np_random. simpl. do 2 f_equal. lia.
Qed.

Lemma np_advance_0 (w : world) : np_advance 0 w = w.
Proof.
  destruct w as [h p [g s c] o]. unfold np_advance, set_np_random. simpl.
  do 2 f_equal. lia.
Qed.

(** One turn of the loop of [gen_phred_scores] that yields a score. *)
Lemma gen_phred_loop_step hist rest phred_list w q :
  draw_quality hist (np_sample (np_random w) (np_calls (np_random w))) = Return q ->
  KernelDensityErrorModel.gen_phred_loop (hist :: rest) phred_list w
  = KernelDensityErrorModel.gen_phred_loop rest (phred_list ++ [q]) (np_advance 1 w).
Proof.
  destruct hist as [values indices]. unfold draw_quality. simpl.
  unfold bind, np_random_choice at 1.
  destruct (choice_args_ok _ _); [| discriminate].
  destruct (_ !! _) as [x |]; [| discriminate].
  unfold lift. now intros ->.
Qed.

Lemma draws_defined_cons hist rest w :
  draws_defined (hist :: rest) w ->
  (exists q, draw_quality hist (np_sample (np_random w) (np_calls (np_random w))) = Return q)
  /\ draws_defined rest (np_advance 1 w).
Proof.
  intros Hdef. split.
  - destruct (Hdef 0%nat hist eq_refl) as [q Hq]. rewrite Nat.add_0_r in Hq. eauto.
  - intros i h Hi. destruct (Hdef (S i) h Hi) as [q Hq].
    exists q. rewrite <- Hq. world_simpl.
    now replace (np_calls (np_random w) + 1 + i)%nat
      with (np_calls (np_random w) + S i)%nat by lia.
Qed.

Lemma gen_phred_loop_degenerate histograms :
  forall phred_list w i hist,
  histograms !! i = Some hist ->
  degenerate hist ->
  is_return (KernelDensityErrorModel.gen_phred_loop histograms phred_list w).1 = false
  /\ (draws_defined (take i histograms) w ->
      KernelDensityErrorModel.gen_phred_loop histograms phred_list w
      = (Raise ValueError, np_advance i w)).
Proof.
  induction histograms as [| [values indices] rest IH]; intros phred_list w i hist Hi Hdeg;
    [done |].
  destruct i as [| i]; simpl in Hi.
  - injection Hi as <-.
    assert (Hrun : KernelDensityErrorModel.gen_phred_loop ((values, indices) :: rest)
                     phred_list w = (Raise ValueError, w)).
    { cbn [KernelDensityErrorModel.gen_phred_loop]. unfold bind, np_random_choice at 1.
      now rewrite (degenerate_refused values indices Hdeg). }
    unfold KernelDensityErrorModel.histogram in *. rewrite Hrun, np_advance_0. now split.
  - split.
    + simpl. unfold bind at 1.
      destruct (np_random_choice _ _ w) as [[x | e] w1]; [| reflexivity].
      unfold bind at 1, lift. destruct (py_round x) as [q | e]; [| reflexivity].
      exact (proj1 (IH (phred_list ++ [q])%list w1 i hist Hi Hdeg)).
    + intros Hdef. apply draws_defined_cons in Hdef as [[q Hq] Hdef].
      rewrite (gen_phred_loop_step _ rest phred_list w q Hq).
      rewrite (proj2 (IH (phred_list ++ [q])%list (np_advance 1 w) i hist Hi Hdeg) Hdef).
      now rewrite np_advance_add.
Qed.

(** Every score comes from a bin edge after the first, and every turn takes
    one sample. *)
Lemma gen_phred_loop_scores histograms :
  forall phred_list w l w',
  KernelDensityErrorModel.gen_phred_loop histograms phred_list w = (Return l, w') ->
  w' = np_advance (length histograms) w
  /\ exists scores, l = (phred_list ++ scores)%list
       /\ Forall2 (fun hist q => exists edge, edge ∈ py_slice_from hist.2 1
                                   /\ py_round edge = Return q) histograms scores.
Proof.
  induction histograms as [| [values indices] rest IH]; intros phred_list w l w'; simpl.
  - intros [= <- <-]. rewrite np_advance_0. split; [reflexivity |].
    exists []. now rewrite app_nil_r.
  - unfold bind at 1, np_random_choice at 1.
    destruct (choice_args_ok _ _); [| discriminate].
    destruct (_ !! _) as [x |] eqn:Hx; [| discriminate].
    unfold bind at 1, lift. destruct (py_round x) as [q | e] eqn:Hq; [| discriminate].
    intros Hrun. apply IH in Hrun as (-> & scores & -> & Hall).
    split; [now rewrite np_advance_add |].
    exists (q :: scores). split; [now rewrite <- app_assoc |].
    constructor; [| exact Hall].
    exists x. split; [| exact Hq]. eapply list_elem_of_lookup_2, Hx.
Qed.

(** The world after the scores of the basic model were drawn. *)
Lemma basic_gen_phred_scores_world `{Libm} (self : BasicErrorModel.t) mean_quality w l w' :
  BasicErrorModel.gen_phred_scores self mean_quality w = (Return l, w') ->
  w' = np_advance (length l) w
  /\ Z.of_nat (length l) = BasicErrorModel.read_length self.
Proof.
  unfold BasicErrorModel.gen_phred_scores, bind, np_random_normal.
  destruct (Z.ltb_spec (BasicErrorModel.read_length self) 0) as [| Hpos]; [discriminate |].
  unfold lift. destruct (list_comp _ _) as [l' | e] eqn:Hl; [| discriminate].
  intros [= <- <-]. apply list_comp_length in Hl.
  rewrite Hl, length_map, length_map, length_seq. split; [reflexivity | lia].
Qed.

Section ScoreDraws.
Context `{Libm}.

(** X12: every score [gen_phred_scores] of the kernel-density model
    returns is the rounding of a bin edge of the histogram of its position,
    and never of the first edge: the choice is made among [indices[1:]]. *)
Theorem kde_scores_are_bin_edges (self : KernelDensityErrorModel.t)
    (histograms : list KernelDensityErrorModel.histogram) (w : world) (l : list Z)
    (w' : world) :
  KernelDensityErrorModel.gen_phred_scores self histograms w = (Return l, w') ->
  Forall2 (fun hist q => exists edge, edge ∈ py_slice_from hist.2 1
                           /\ py_round edge = Return q) histograms l.
Proof.
  unfold KernelDensityErrorModel.gen_phred_scores. intros Hrun.
  now apply gen_phred_loop_scores in Hrun as (_ & scores & -> & Hall).
Qed.

(** X13: when [gen_phred_scores] returns, in either model, it has moved
    numpy's generator by one draw for each score of the list, and has left
    the store, Python's generator and the output as they were. *)
Theorem gen_phred_scores_samples (w : world) (l : list Z) (w' : world) :
  (forall (self : BasicErrorModel.t) (mean_quality : float),
      BasicErrorModel.gen_phred_scores self mean_quality w = (Return l, w') ->
      w' = np_advance (length l) w)
  /\ (forall (self : KernelDensityErrorModel.t) histograms,
      KernelDensityErrorModel.gen_phred_scores self histograms w = (Return l, w') ->
      w' = np_advance (length l) w).
Proof.
  split.
  - intros self mean_quality Hrun.
    now apply basic_gen_phred_scores_world in Hrun as [-> _].
  - intros self histograms Hrun. unfold KernelDensityErrorModel.gen_phred_scores in Hrun.
    pose proof (gen_phred_loop_length _ _ _ _ _ Hrun) as Hlen.
    apply gen_phred_loop_scores in Hrun as (-> & _). now rewrite Hlen.
Qed.

(** X14: [gen_phred_scores] of the kernel-density model never returns when
    one of the histograms is degenerate: its counts are all zero (a position
    without observations), or its bin edges are not one more than its
    counts. If the histograms before it yield their scores, the call raises
    ValueError at the degenerate one, after one draw for each of the
    former. *)
Theorem degenerate_histogram_value_error (self : KernelDensityErrorModel.t)
    (histograms : list KernelDensityErrorModel.histogram) (w : world) (i : nat)
    (hist : KernelDensityErrorModel.histogram) :
  histograms !! i = Some hist ->
  degenerate hist ->
  is_return (KernelDensityErrorModel.gen_phred_scores self histograms w).1 = false
  /\ (draws_defined (take i histograms) w ->
      KernelDensityErrorModel.gen_phred_scores self histograms w
      = (Raise ValueError, np_advance i w)).
Proof.
  intros Hi Hdeg. now apply gen_phred_loop_degenerate with hist.
Qed.

End ScoreDraws.

(** * Annotating a record *)

(** The two last steps of [introduce_error_scores]: the list of scores
    becomes an object, and the record takes it if it has one score per
    letter. *)
Lemma annotate_run (w : world) (record s : loc) (ann : gmap string loc)
    (d : list ascii) (l : list Z) :
  heap w !! record = Some (SeqRecord s ann) ->
  heap w !! s = Some (Seq d) ->
  (let* phred_list := alloc (PyList l) in
   set_letter_annotation record "phred_quality" phred_list) w
  = if decide (length l = length d)
    then (Return tt, set_heap (annotated (heap w) record s ann l) w)
    else (Raise TypeError, set_heap (heap w ++ [PyList l]) w).
Proof.
  intros Hr Hs. unfold bind at 1, alloc.
  unfold set_letter_annotation, bind at 1, deref. world_simpl.
  rewrite (lookup_app_l_Some _ _ _ _ Hr).
  unfold bind at 1, py_len at 1, bind at 1, deref. world_simpl.
  rewrite (lookup_app_l_Some _ _ _ _ Hs). unfold ret at 1.
  unfold bind at 1, py_len at 1, bind at 1, deref. world_simpl.
  rewrite list_lookup_middle by reflexivity. unfold ret at 1.
  case_decide; reflexivity.
Qed.

Lemma annotated_holds_record (w : world) (record s : loc) (ann : gmap string loc)
    (d : list ascii) (l : list Z) (w' : world) :
  heap w !! record = Some (SeqRecord s ann) ->
  heap w !! s = Some (Seq d) ->
  heap w' = annotated (heap w) record s ann l ->
  holds_record w' record d l.
Proof.
  intros Hr Hs Hw. unfold holds_record. rewrite Hw. unfold annotated.
  pose proof (lookup_lt_Some _ _ _ Hr) as Hlt.
  assert (Hne : record <> s) by (intros ->; congruence).
  exists s, (<["phred_quality" := length (heap w)]> ann), (length (heap w)).
  split; [apply list_lookup_insert_eq; rewrite length_app; lia |].
  split; [rewrite list_lookup_insert_ne by done; now apply lookup_app_l_Some |].
  split; [apply lookup_insert_eq |].
  rewrite list_lookup_insert_ne by lia. now apply list_lookup_middle.
Qed.

Section Annotate.
Context `{Libm}.

Lemma basic_introduce_run (self : BasicErrorModel.t) record orientation w mean_quality l w1 :
  phred_to_prob (BasicErrorModel.quality self) = Return mean_quality ->
  BasicErrorModel.gen_phred_scores self mean_quality w = (Return l, w1) ->
  BasicErrorModel.introduce_error_scores self record orientation w
  = match (let* phred_list := alloc (PyList l) in
           set_letter_annotation record "phred_quality" phred_list) w1 with
    | (Return _, w') => (Return record, w')
    | (Raise e, w') => (Raise e, w')
    end.
Proof.
  intros Hmean Hgen.
  unfold BasicErrorModel.introduce_error_scores, bind at 1, lift. rewrite Hmean.
  unfold bind at 1. rewrite Hgen.
  unfold bind at 1 2 3, alloc. destruct (set_letter_annotation _ _ _ _) as [[[] | e] w'];
    reflexivity.
Qed.

Lemma kde_introduce_run (self : KernelDensityErrorModel.t) record orientation histograms
    w l w1 :
  quality_hist self orientation = Some histograms ->
  KernelDensityErrorModel.gen_phred_scores self histograms w = (Return l, w1) ->
  KernelDensityErrorModel.introduce_error_scores self record orientation w
  = match (let* phred_list := alloc (PyList l) in
           set_letter_annotation record "phred_quality" phred_list) w1 with
    | (Return _, w') => (Return record, w')
    | (Raise e, w') => (Raise e, w')
    end.
Proof.
  unfold quality_hist, KernelDensityErrorModel.introduce_error_scores.
  intros Hsel Hgen.
  repeat case_decide; try discriminate; injection Hsel as <-;
    unfold bind at 1 2; rewrite Hgen;
    unfold bind at 1 2, alloc; destruct (set_letter_annotation _ _ _ _) as [[[] | e] w'];
    reflexivity.
Qed.

Lemma kde_introduce_raises (self : KernelDensityErrorModel.t) record orientation histograms
    w e w1 :
  quality_hist self orientation = Some histograms ->
  KernelDensityErrorModel.gen_phred_scores self histograms w = (Raise e, w1) ->
  KernelDensityErrorModel.introduce_error_scores self record orientation w = (Raise e, w1).
Proof.
  unfold quality_hist, KernelDensityErrorModel.introduce_error_scores.
  intros Hsel Hgen.
  repeat case_decide; try discriminate; injection Hsel as <-;
    unfold bind at 1 2; now rewrite Hgen.
Qed.

(** What a returning [introduce_error_scores] leaves behind, for both
    models: the record it was given, annotated with a list of one score per
    letter, and a numpy generator moved by as many samples. *)
Lemma introduce_returns (w : world) (record s : loc) (ann : gmap string loc)
    (d : list ascii) (orientation : string) (out : loc) (w' : world) :
  heap w !! record = Some (SeqRecord s ann) ->
  heap w !! s = Some (Seq d) ->
  (exists self,
      BasicErrorModel.introduce_error_scores self record orientation w = (Return out, w'))
  \/ (exists self,
      (orientation = "forward" \/ orientation = "reverse")
      /\ KernelDensityErrorModel.introduce_error_scores self record orientation w
         = (Return out, w')) ->
  out = record
  /\ exists l, length l = length d
       /\ w' = set_heap (annotated (heap w) record s ann l) (np_advance (length d) w).
Proof.
  intros Hr Hs Hrun.
  assert (Hgen : forall l n,
            match (let* phred_list := alloc (PyList l) in
                   set_letter_annotation record "phred_quality" phred_list)
                    (np_advance n w) with
            | (Return _, w2) => (Return record, w2)
            | (Raise e, w2) => (Raise e, w2)
            end = (Return out, w') ->
            length l = n ->
            out = record
            /\ exists l, length l = length d
                 /\ w' = set_heap (annotated (heap w) record s ann l)
                           (np_advance (length d) w)).
  { intros l n Hret Hn.
    rewrite (annotate_run (np_advance n w) record s ann d l Hr Hs) in Hret.
    case_decide as Hlen; [| discriminate]. injection Hret as <- <-.
    split; [reflexivity |]. exists l. split; [exact Hlen |].
    now rewrite <- Hn, Hlen. }
  destruct Hrun as [[self Hrun] | (self & Ho & Hrun)].
  - destruct (phred_to_prob (BasicErrorModel.quality self)) as [mean_quality | e] eqn:Hmean.
    + destruct (BasicErrorModel.gen_phred_scores self mean_quality w) as [[l | e] w1] eqn:Hl.
      * rewrite (basic_introduce_run self record orientation w mean_quality l w1 Hmean Hl)
          in Hrun.
        apply basic_gen_phred_scores_world in Hl as [-> _].
        exact (Hgen l _ Hrun eq_refl).
      * unfold BasicErrorModel.introduce_error_scores, bind at 1, lift in Hrun.
        rewrite Hmean in Hrun. unfold bind at 1 in Hrun. now rewrite Hl in Hrun.
    + unfold BasicErrorModel.introduce_error_scores, bind at 1, lift in Hrun.
      now rewrite Hmean in Hrun.
  - assert (Hsel : exists histograms, quality_hist self orientation = Some histograms).
    { unfold quality_hist. destruct Ho as [-> | ->]; repeat case_decide; eauto; done. }
    destruct Hsel as [histograms Hsel].
    destruct (KernelDensityErrorModel.gen_phred_scores self histograms w) as [[l | e] w1] eqn:Hl.
    + rewrite (kde_introduce_run self record orientation histograms w l w1 Hsel Hl) in Hrun.
      pose proof (gen_phred_loop_length _ _ _ _ _ Hl) as Hlen.
      apply gen_phred_loop_scores in Hl as (-> & _).
      exact (Hgen l _ Hrun Hlen).
    + now rewrite (kde_introduce_raises self record orientation histograms w e w1 Hsel Hl)
        in Hrun.
Qed.

(** X15: when [introduce_error_scores] returns (for the kernel-density
    model, with the orientation "forward" or "reverse"), it returns the
    record it was given, and that record has been changed in place: its
    "phred_quality" annotation is a new list with one score for each letter,
    put over an earlier annotation of that name if there was one. The
    sequence, the other annotations and every other object are as they
    were, and numpy's generator has moved by one draw for each letter. *)
Theorem introduce_error_scores_annotates (w : world) (record s : loc)
    (ann : gmap string loc) (d : list ascii) (orientation : string) (out : loc)
    (w' : world) :
  heap w !! record = Some (SeqRecord s ann) ->
  heap w !! s = Some (Seq d) ->
  (forall self,
      BasicErrorModel.introduce_error_scores self record orientation w = (Return out, w') ->
      out = record
      /\ exists l, length l = length d
           /\ w' = set_heap (annotated (heap w) record s ann l) (np_advance (length d) w)
           /\ holds_record w' record d l)
  /\ (forall self,
      orientation = "forward" \/ orientation = "reverse" ->
      KernelDensityErrorModel.introduce_error_scores self record orientation w
        = (Return out, w') ->
      out = record
      /\ exists l, length l = length d
           /\ w' = set_heap (annotated (heap w) record s ann l) (np_advance (length d) w)
           /\ holds_record w' record d l).
Proof.
  intros Hr Hs.
  assert (Hgen : out = record
                 /\ (exists l, length l = length d
                       /\ w' = set_heap (annotated (heap w) record s ann l)
                                 (np_advance (length d) w)) ->
                 out = record
                 /\ exists l, length l = length d
                      /\ w' = set_heap (annotated (heap w) record s ann l)
                                (np_advance (length d) w)
                      /\ holds_record w' record d l).
  { intros (-> & l & Hlen & ->). split; [reflexivity |]. exists l.
    split; [exact Hlen |]. split; [reflexivity |].
    now apply (annotated_holds_record w record s ann d l). }
  split.
  - intros self Hrun. apply Hgen.
    apply (introduce_returns w record s ann d orientation out w' Hr Hs). eauto.
  - intros self Ho Hrun. apply Hgen.
    apply (introduce_returns w record s ann d orientation out w' Hr Hs). eauto.
Qed.

(** X16: [introduce_error_scores] never returns on a record whose sequence
    has not as many letters as the model draws scores: [read_length], which
    is 125 after [__init__], for the basic model, the number of histograms
    of the orientation for the kernel-density model. When the scores have
    been drawn, the annotation is refused with TypeError, and the record is
    left as it was, beside the new list. *)
Theorem introduce_error_scores_length_check (w : world) (record s : loc)
    (ann : gmap string loc) (d : list ascii) (orientation : string) :
  heap w !! record = Some (SeqRecord s ann) ->
  heap w !! s = Some (Seq d) ->
  (forall self,
      Z.of_nat (length d) <> BasicErrorModel.read_length self ->
      is_return (BasicErrorModel.introduce_error_scores self record orientation w).1 = false
      /\ forall mean_quality l w1,
           phred_to_prob (BasicErrorModel.quality self) = Return mean_quality ->
           BasicErrorModel.gen_phred_scores self mean_quality w = (Return l, w1) ->
           BasicErrorModel.introduce_error_scores self record orientation w
           = (Raise TypeError, set_heap (heap w ++ [PyList l]) w1))
  /\ (forall self histograms,
      quality_hist self orientation = Some histograms ->
      length histograms <> length d ->
      is_return (KernelDensityErrorModel.introduce_error_scores self record orientation w).1
        = false
      /\ forall l w1,
           KernelDensityErrorModel.gen_phred_scores self histograms w = (Return l, w1) ->
           KernelDensityErrorModel.introduce_error_scores self record orientation w
           = (Raise TypeError, set_heap (heap w ++ [PyList l]) w1)).
Proof.
  intros Hr Hs.
  assert (Hgen : forall l n,
            length l <> length d ->
            match (let* phred_list := alloc (PyList l) in
                   set_letter_annotation record "phred_quality" phred_list)
                    (np_advance n w) with
            | (Return _, w2) => (Return record, w2)
            | (Raise e, w2) => (Raise e, w2)
            end = (Raise TypeError, set_heap (heap w ++ [PyList l]) (np_advance n w))).
  { intros l n Hlen.
    rewrite (annotate_run (np_advance n w) record s ann d l Hr Hs).
    now rewrite decide_False by exact Hlen. }
  split.
  - intros self Hlen.
    assert (Hat : forall mean_quality l w1,
              phred_to_prob (BasicErrorModel.quality self) = Return mean_quality ->
              BasicErrorModel.gen_phred_scores self mean_quality w = (Return l, w1) ->
              BasicErrorModel.introduce_error_scores self record orientation w
              = (Raise TypeError, set_heap (heap w ++ [PyList l]) w1)).
    { intros mean_quality l w1 Hmean Hl.
      rewrite (basic_introduce_run self record orientation w mean_quality l w1 Hmean Hl).
      apply basic_gen_phred_scores_world in Hl as [-> Hl].
      apply Hgen. lia. }
    split; [| exact Hat].
    destruct (phred_to_prob (BasicErrorModel.quality self)) as [mean_quality | e] eqn:Hmean.
    + destruct (BasicErrorModel.gen_phred_scores self mean_quality w) as [[l | e] w1] eqn:Hl.
      * now rewrite (Hat mean_quality l w1 eq_refl Hl).
      * unfold BasicErrorModel.introduce_error_scores, bind at 1, lift.
        rewrite Hmean. unfold bind at 1. now rewrite Hl.
    + unfold BasicErrorModel.introduce_error_scores, bind at 1, lift. now rewrite Hmean.
  - intros self histograms Hsel Hlen.
    assert (Hat : forall l w1,
              KernelDensityErrorModel.gen_phred_scores self histograms w = (Return l, w1) ->
              KernelDensityErrorModel.introduce_error_scores self record orientation w
              = (Raise TypeError, set_heap (heap w ++ [PyList l]) w1)).
    { intros l w1 Hl.
      rewrite (kde_introduce_run self record orientation histograms w l w1 Hsel Hl).
      pose proof (gen_phred_loop_length _ _ _ _ _ Hl) as Hll.
      apply gen_phred_loop_scores in Hl as (-> & _).
      apply Hgen. simpl in Hll. lia. }
    split; [| exact Hat].
    destruct (KernelDensityErrorModel.gen_phred_scores self histograms w) as [[l | e] w1] eqn:Hl.
    + now rewrite (Hat l w1 eq_refl).
    + now rewrite (kde_introduce_raises self record orientation histograms w e w1 Hsel Hl).
Qed.

End Annotate.

(** * Scores, then substitutions *)

Section Compose.
Context `{Libm}.

(** X17: [mut_sequence] after [introduce_error_scores] on the same record:
    the scores are as many as the letters, so that every letter has its
    turn. The sequence returned has the length of the record's; numpy's
    generator has given one draw for every letter to the scores, and the
    loop has called Python's [random] once for every letter, with one more
    call for every changed base: of Python's [random] in the basic model,
    of numpy's generator in the kernel-density model. *)
Theorem scores_then_substitutions (w : world) (record s : loc) (ann : gmap string loc)
    (d : list ascii) (o1 o2 : string) (out1 : loc) (w1 : world) (out : loc) (w2 : world) :
  heap w !! record = Some (SeqRecord s ann) ->
  heap w !! s = Some (Seq d) ->
  (forall self,
      BasicErrorModel.introduce_error_scores self record o1 w = (Return out1, w1) ->
      BasicErrorModel.mut_sequence self out1 o2 w1 = (Return out, w2) ->
      exists d', heap w2 !! out = Some (Seq d')
        /\ length d' = length d
        /\ py_random w2 = py_random (py_advance (length d + changed d d') w)
        /\ np_random w2 = np_random (np_advance (length d) w))
  /\ (forall self matrix,
      o1 = "forward" \/ o1 = "reverse" ->
      subst_matrix_of self o2 = Some matrix ->
      KernelDensityErrorModel.introduce_error_scores self record o1 w = (Return out1, w1) ->
      KernelDensityErrorModel.mut_sequence self out1 o2 w1 = (Return out, w2) ->
      exists d', heap w2 !! out = Some (Seq d')
        /\ length d' = length d
        /\ py_random w2 = py_random (py_advance (length d) w)
        /\ np_random w2 = np_random (np_advance (length d + changed d d') w)).
Proof.
  intros Hr Hs.
  assert (Hgen : forall body pulls picks,
            turn_spec body ->
            (forall l, holds_record w1 record d l ->
               wp (for_zip (body (length (heap w1))) 0 (zip d l))
                  (fun r w3 => r = Return tt ->
                     loop_state (length (heap w1)) d (loop_start w1 d) pulls picks
                       (length (zip d l)) w3) (loop_start w1 d)) ->
            out1 = record
            /\ (exists l, length l = length d
                 /\ w1 = set_heap (annotated (heap w) record s ann l)
                           (np_advance (length d) w)) ->
            mutate_copy body out1 w1 = (Return out, w2) ->
            exists d', heap w2 !! out = Some (Seq d')
              /\ length d' = length d
              /\ py_random w2 = py_random (py_advance (pulls (length d) d') w)
              /\ np_random w2
                 = np_random (np_advance (length d + picks (length d) d') w)).
  { intros body pulls picks Hbody Hloop (-> & l & Hlen & Hw1) Hrun.
    assert (Hrec : holds_record w1 record d l).
    { apply (annotated_holds_record w record s ann d l w1 Hr Hs). now rewrite Hw1. }
    destruct (mutate_copy_returns body w1 record d l out w2 Hbody Hrec Hrun)
      as (d' & Hout & Hd' & _).
    destruct (mutate_copy_draws body w1 record d l pulls picks out w2 Hrec (Hloop l Hrec) Hrun)
      as (d'' & Hout' & Hpy & Hnp & _).
    rewrite Hout in Hout'. injection Hout' as <-.
    rewrite Hlen, Nat.min_id in Hpy, Hnp.
    exists d'. split; [exact Hout |]. split; [exact Hd' |].
    rewrite Hpy, Hnp, Hw1. split; [reflexivity |].
    unfold np_advance. world_simpl. f_equal. lia. }
  split.
  - intros self Hscores Hrun.
    apply (Hgen BasicErrorModel.mut_body (fun k t => (k + changed d t)%nat)
             (fun _ _ => 0%nat) basic_turn_spec) in Hrun.
    + destruct Hrun as (d' & Hout & Hlen & Hpy & Hnp). exists d'.
      rewrite Nat.add_0_r in Hnp. now repeat split.
    + intros l Hrec. apply basic_loop_draws, loop_start_copy.
    + apply (introduce_returns w record s ann d o1 out1 w1 Hr Hs). eauto.
  - intros self matrix Ho Hsel Hscores Hrun.
    rewrite (kde_mut_sequence_run self out1 o2 w1 (Some matrix) w1
               (select_subst_matrix_valid self o2 matrix w1 Hsel)) in Hrun.
    apply (Hgen _ (fun k _ => k) (fun _ t => changed d t) (kde_turn_spec (Some matrix)))
      in Hrun.
    + exact Hrun.
    + intros l Hrec. apply kde_loop_draws, loop_start_copy.
    + apply (introduce_returns w record s ann d o1 out1 w1 Hr Hs). eauto.
Qed.

End Compose.

(** * Facts about the other sample records *)

Lemma edge_short_record : holds_record Edge.world1 2 Sample.acgt [30; 30].
Proof. exists 0%nat, {["phred_quality" := 1%nat]}, 1%nat. now repeat split. Qed.

Lemma edge_unknown_record : holds_record Edge.world1 5 Edge.anct [30; 30; 30; 30].
Proof. exists 3%nat, {["phred_quality" := 4%nat]}, 4%nat. now repeat split. Qed.

Lemma edge_empty_record : holds_record Edge.world1 7 Sample.acgt [].
Proof. exists 0%nat, {["phred_quality" := 6%nat]}, 6%nat. now repeat split. Qed.

(** * Runs on the sample world *)

#[local] Existing Instance soft_libm.

(** A run of each model on the example record. *)
Lemma mut_sequence_length_alphabet_witness :
  (exists out w' d',
      BasicErrorModel.mut_sequence BasicErrorModel.init 2 "forward" Sample.world0
        = (Return out, w')
      /\ heap w' !! out = Some (Seq d')
      /\ length d' = length Sample.acgt /\ Forall is_nucleotide d')
  /\ (exists d',
      heap (KernelDensityErrorModel.mut_sequence Sample.profile 2 "forward" Sample.world0).2
        !! 5%nat = Some (Seq d')
      /\ length d' = length Sample.acgt /\ Forall is_nucleotide d').
Proof.
  destruct (mut_sequence_length_alphabet Sample.world0 2 Sample.acgt [30; 30; 30; 30]
              "forward" sample_record sample_nucleotides) as (Hbasic & Hkde & Hreturns);
    [repeat constructor |].
  split; [exact (Hbasic BasicErrorModel.init) |].
  destruct (Hreturns Sample.profile _ eq_refl sample_turn_draws) as (out & w' & Hrun).
  destruct (Hkde Sample.profile out w' Hrun) as (d' & Hout & Hlen & Hd).
  exists d'. rewrite Hrun. split; [| now split].
  replace 5%nat with out; [exact Hout |].
  apply (f_equal fst) in Hrun. vm_compute in Hrun. now injection Hrun as <-.
Defined.

(** The turn of position 1 of the example substitutes its C, in both models. *)
Lemma substitution_changes_base_witness :
  (exists d' c,
      heap (BasicErrorModel.mut_sequence BasicErrorModel.init 2 "forward" Sample.world0).2
        !! 5%nat = Some (Seq d')
      /\ d' !! 1%nat = Some c /\ c <> nucl_C)
  /\ (exists d' c,
      heap (KernelDensityErrorModel.mut_sequence Sample.profile 2 "forward" Sample.world0).2
        !! 5%nat = Some (Seq d')
      /\ d' !! 1%nat = Some c /\ c <> nucl_C).
Proof.
  destruct (substitution_changes_base Sample.world0 2 Sample.acgt [30; 30; 30; 30]
              "forward" 1 nucl_C 30 sample_record eq_refl) as [Hbasic Hkde].
  split.
  - apply (Hbasic BasicErrorModel.init
             (for_zip (BasicErrorModel.mut_body 4) 0 (take 1 (zip Sample.acgt [30; 30; 30; 30]))
                (loop_start Sample.world0 Sample.acgt)).2).
    + rewrite (surjective_pairing (for_zip _ _ _ _)) at 1. f_equal; vm_compute; reflexivity.
    + vm_compute. reflexivity.
    + rewrite (surjective_pairing (BasicErrorModel.mut_sequence _ _ _ _)) at 1.
      f_equal; vm_compute; reflexivity.
  - apply (Hkde Sample.profile
             (Some (KernelDensityErrorModel.subst_matrix_forward Sample.profile))
             Sample.world0
             (for_zip (KernelDensityErrorModel.mut_body
                         (Some (KernelDensityErrorModel.subst_matrix_forward Sample.profile)) 4)
                0 (take 1 (zip Sample.acgt [30; 30; 30; 30]))
                (loop_start Sample.world0 Sample.acgt)).2).
    + reflexivity.
    + rewrite (surjective_pairing (for_zip _ _ _ _)) at 1. f_equal; vm_compute; reflexivity.
    + vm_compute. reflexivity.
    + rewrite (surjective_pairing (KernelDensityErrorModel.mut_sequence _ _ _ _)) at 1.
      f_equal; vm_compute; reflexivity.
Defined.

(** The orientation "sideways" on the example records. *)
Lemma bad_orientation_goes_on_witness :
  KernelDensityErrorModel.introduce_error_scores Sample.profile 3 "sideways" Sample.world0
    = (Return 3%nat, printed "bad orientation. Fatal" Sample.world0)
  /\ KernelDensityErrorModel.mut_sequence Sample.profile 2 "sideways" Sample.world0
    = (Raise UnboundLocalError,
       loop_start (printed "this is bad" Sample.world0) Sample.acgt).
Proof.
  destruct (bad_orientation_goes_on Sample.profile 3 "sideways" Sample.world0)
    as [Hscores _]; [discriminate | discriminate |].
  destruct (bad_orientation_goes_on Sample.profile 2 "sideways" Sample.world0)
    as [_ Hmut]; [discriminate | discriminate |].
  split; [exact Hscores |].
  apply (Hmut Sample.acgt [30; 30; 30; 30] sample_record). discriminate.
Defined.

(** The basic model draws 125 scores, the sample profile 4 in each
    orientation. *)
Lemma gen_phred_scores_length_witness :
  (exists mean_quality l,
      phred_to_prob (BasicErrorModel.quality BasicErrorModel.init) = Return mean_quality
      /\ (BasicErrorModel.gen_phred_scores BasicErrorModel.init mean_quality
            Sample.world0).1 = Return l
      /\ Z.of_nat (length l) = 125)
  /\ (exists l,
      (KernelDensityErrorModel.gen_phred_scores Sample.profile
         (KernelDensityErrorModel.quality_hist_forward Sample.profile) Sample.world0).1
        = Return l
      /\ Z.of_nat (length l) = KernelDensityErrorModel.read_length Sample.profile)
  /\ (exists l,
      (KernelDensityErrorModel.gen_phred_scores Sample.profile
         (KernelDensityErrorModel.quality_hist_reverse Sample.profile) Sample.world0).1
        = Return l
      /\ Z.of_nat (length l) = KernelDensityErrorModel.read_length Sample.profile).
Proof.
  destruct (gen_phred_scores_length Sample.world0) as (_ & Hbasic & Hkde).
  split; [| split].
  - destruct (phred_to_prob (BasicErrorModel.quality BasicErrorModel.init))
      as [mean_quality | e] eqn:Hmean; vm_compute in Hmean; [| discriminate Hmean].
    injection Hmean as <-.
    destruct (Hbasic BasicErrorModel.init 0.999%float) as [Hlen Hret]; [discriminate |].
    destruct Hret as [l Hl]; [apply Forall_returns_check; vm_compute; reflexivity |].
    exists 0.999%float, l. split; [reflexivity |]. split; [exact Hl | exact (Hlen l Hl)].
  - destruct (Hkde Sample.profile "forward" _ eq_refl eq_refl) as [Hlen Hret].
    destruct Hret as [l Hl]; [apply draws_defined_check; vm_compute; reflexivity |].
    exists l. split; [exact Hl | exact (Hlen l Hl)].
  - destruct (Hkde Sample.profile "reverse" _ eq_refl eq_refl) as [Hlen Hret].
    destruct Hret as [l Hl]; [apply draws_defined_check; vm_compute; reflexivity |].
    exists l. split; [exact Hl | exact (Hlen l Hl)].
Defined.

(** The conversions with the software library: the round trip gives the
    score back for every score from 0 to 99, and from 163 on the
    probability is the float 1 and has no score. *)
Example soft_round_trip :
  forallb (fun q => match phred_to_prob q with
                    | Return p => bool_decide (returned (prob_to_phred p) = Some q)
                    | Raise _ => false
                    end)
          (map Z.of_nat (seq 0 100)) = true.
Proof. vm_compute. reflexivity. Qed.

Example soft_saturation :
  phred_to_prob 163 = Return 1%float
  /\ prob_to_phred 1%float = Raise OverflowError.
Proof. split; vm_compute; reflexivity. Qed.

(** The sample record through both methods of the basic model built for
    reads of four letters: four scores, then the letters A, G, T, A. *)
Example sample_basic_run :
  let model := {| BasicErrorModel.read_length := 4; BasicErrorModel.insert_size := 200;
                  BasicErrorModel.quality := 30 |} in
  let after := (BasicErrorModel.introduce_error_scores model 3 "forward" Sample.world0).2 in
  heap after !! 4%nat = Some (PyList [24; 25; 27; 30])
  /\ (BasicErrorModel.mut_sequence model 3 "forward" after).1 = Return 6%nat
  /\ heap (BasicErrorModel.mut_sequence model 3 "forward" after).2 !! 6%nat
     = Some (Seq [nucl_A; nucl_G; nucl_T; nucl_A]).
Proof. vm_compute. repeat split. Qed.

(** * Runs of the further properties *)

(** A run is the pair of its outcome and its world. *)
Ltac run_is out :=
  match goal with
  | |- ?m = (_, _) =>
      rewrite (surjective_pairing m) at 1; f_equal; vm_compute; reflexivity
  end.

(** The turn of position 0 of the example draws 0.5 and keeps its A, in
    both models. *)
Lemma unsubstituted_keeps_base_witness :
  (exists d',
      heap (BasicErrorModel.mut_sequence BasicErrorModel.init 2 "forward" Sample.world0).2
        !! 5%nat = Some (Seq d')
      /\ d' !! 0%nat = Some nucl_A)
  /\ (exists d',
      heap (KernelDensityErrorModel.mut_sequence Sample.profile 2 "forward" Sample.world0).2
        !! 5%nat = Some (Seq d')
      /\ d' !! 0%nat = Some nucl_A).
Proof.
  destruct (unsubstituted_keeps_base Sample.world0 2 Sample.acgt [30; 30; 30; 30]
              "forward" 0 nucl_A 30 sample_record eq_refl) as [Hbasic Hkde].
  split.
  - apply (Hbasic BasicErrorModel.init (loop_start Sample.world0 Sample.acgt)).
    + reflexivity.
    + vm_compute. reflexivity.
    + run_is 5%nat.
  - apply (Hkde Sample.profile (KernelDensityErrorModel.subst_matrix_forward Sample.profile)
             (loop_start Sample.world0 Sample.acgt)).
    + reflexivity.
    + reflexivity.
    + vm_compute. reflexivity.
    + run_is 5%nat.
Defined.

(** With two scores for four letters, the last two letters are kept. *)
Lemma unscored_letters_unchanged_witness :
  (exists d',
      heap (BasicErrorModel.mut_sequence BasicErrorModel.init 2 "forward" Edge.world1).2
        !! 9%nat = Some (Seq d')
      /\ forall j, (2 <= j)%nat -> d' !! j = Sample.acgt !! j)
  /\ (exists d',
      heap (KernelDensityErrorModel.mut_sequence Sample.profile 2 "forward" Edge.world1).2
        !! 9%nat = Some (Seq d')
      /\ forall j, (2 <= j)%nat -> d' !! j = Sample.acgt !! j).
Proof.
  destruct (unscored_letters_unchanged Edge.world1 2 Sample.acgt [30; 30] "forward"
              edge_short_record) as [Hbasic Hkde].
  split.
  - apply (Hbasic BasicErrorModel.init). run_is 9%nat.
  - apply (Hkde Sample.profile). run_is 9%nat.
Defined.

(** With no score at all, the copy is returned as it is, also for the
    orientation "sideways". *)
Lemma empty_input_copy_witness :
  (exists out w',
      BasicErrorModel.mut_sequence BasicErrorModel.init 7 "forward" Edge.world1
        = (Return out, w')
      /\ heap w' !! out = Some (Seq Sample.acgt)
      /\ py_random w' = py_random Edge.world1 /\ np_random w' = np_random Edge.world1)
  /\ (exists out w',
      KernelDensityErrorModel.mut_sequence Sample.profile 7 "sideways" Edge.world1
        = (Return out, w')
      /\ heap w' !! out = Some (Seq Sample.acgt)
      /\ py_random w' = py_random Edge.world1 /\ np_random w' = np_random Edge.world1).
Proof.
  destruct (empty_input_copy Edge.world1 7 Sample.acgt [] "forward" edge_empty_record)
    as [Hbasic _]; [now right |].
  destruct (empty_input_copy Edge.world1 7 Sample.acgt [] "sideways" edge_empty_record)
    as [_ Hkde]; [now right |].
  split; [exact (Hbasic BasicErrorModel.init) | exact (Hkde Sample.profile)].
Defined.

(** The record that has no annotation. *)
Lemma unscored_record_key_error_witness :
  BasicErrorModel.mut_sequence BasicErrorModel.init 3 "forward" Sample.world0
    = (Raise KeyError, loop_start Sample.world0 Sample.acgt)
  /\ (KernelDensityErrorModel.mut_sequence Sample.profile 3 "sideways" Sample.world0).1
     = Raise KeyError
  /\ heap (KernelDensityErrorModel.mut_sequence Sample.profile 3 "sideways" Sample.world0).2
     = (Sample.store0 ++ [MutableSeq Sample.acgt])%list.
Proof.
  destruct (unscored_record_key_error Sample.world0 3 0 ∅ Sample.acgt "forward"
              eq_refl eq_refl eq_refl) as [Hbasic _].
  destruct (unscored_record_key_error Sample.world0 3 0 ∅ Sample.acgt "sideways"
              eq_refl eq_refl eq_refl) as [_ Hkde].
  split; [exact (Hbasic BasicErrorModel.init) | exact (Hkde Sample.profile)].
Defined.

(** The N at position 1, whose turn draws 0.9995. *)
Lemma unknown_letter_key_error_witness :
  BasicErrorModel.mut_sequence BasicErrorModel.init 5 "forward" Edge.world1
    = (Raise KeyError, py_tick (py_tick (loop_start Edge.world1 Edge.anct)))
  /\ KernelDensityErrorModel.mut_sequence Sample.profile 5 "forward" Edge.world1
    = (Raise KeyError, py_tick (py_tick (loop_start Edge.world1 Edge.anct))).
Proof.
  assert (Hn : ~ is_nucleotide "N"%char).
  { unfold is_nucleotide, nucleotides. rewrite !elem_of_cons, elem_of_nil.
    intros [Hn | [Hn | [Hn | [Hn | []]]]]; discriminate Hn. }
  destruct (unknown_letter_key_error Edge.world1 5 Edge.anct [30; 30; 30; 30]
              "forward" 1 "N"%char 30 edge_unknown_record eq_refl Hn) as [Hbasic Hkde].
  split.
  - apply (Hbasic BasicErrorModel.init (py_tick (loop_start Edge.world1 Edge.anct))).
    + vm_compute. reflexivity.
    + vm_compute. reflexivity.
  - apply (Hkde Sample.profile (KernelDensityErrorModel.subst_matrix_forward Sample.profile)
             (py_tick (loop_start Edge.world1 Edge.anct)) eq_refl).
    + vm_compute. lia.
    + vm_compute. reflexivity.
    + vm_compute. reflexivity.
Defined.

(** Four scored letters and a matrix of two rows. *)
Lemma short_matrix_index_error_witness :
  is_return (KernelDensityErrorModel.mut_sequence Edge.short_profile 2 "forward"
               Sample.world0).1 = false
  /\ (KernelDensityErrorModel.mut_sequence Edge.short_profile 2 "forward" Sample.world0).1
     = Raise IndexError.
Proof.
  destruct (short_matrix_index_error Sample.world0 2 Sample.acgt [30; 30; 30; 30]
              "forward" Edge.short_profile _ sample_record eq_refl) as [Hnever Hat].
  { vm_compute. lia. }
  split; [exact Hnever |].
  rewrite (Hat (for_zip (KernelDensityErrorModel.mut_body
                           (Some (KernelDensityErrorModel.subst_matrix_forward
                                    Edge.short_profile)) 4)
                  0 (take 2 (zip Sample.acgt [30; 30; 30; 30]))
                  (loop_start Sample.world0 Sample.acgt)).2); [reflexivity |].
  run_is tt.
Defined.

(** The C at position 1 in a profile without any observed substitution. *)
Lemma zero_row_value_error_witness :
  KernelDensityErrorModel.mut_sequence Edge.flat_profile 2 "forward" Sample.world0
  = (Raise ValueError, py_tick (py_tick (loop_start Sample.world0 Sample.acgt))).
Proof.
  apply (zero_row_value_error Sample.world0 2 Sample.acgt [30; 30; 30; 30] "forward"
           Edge.flat_profile (replicate 4 (replicate 16 0)) 1 nucl_C 30 (replicate 16 0) 2
           (py_tick (loop_start Sample.world0 Sample.acgt)) sample_record);
    try reflexivity; vm_compute; reflexivity.
Defined.

(** Other counts in entries 0, 4, 8 and 12 of every row: the same run. *)
Lemma kde_mut_sequence_reads_row_counts_witness :
  KernelDensityErrorModel.mut_sequence Sample.profile 2 "forward" Sample.world0
  = KernelDensityErrorModel.mut_sequence Edge.other_profile 2 "forward" Sample.world0.
Proof.
  apply (kde_mut_sequence_reads_row_counts Sample.world0 2 Sample.acgt [30; 30; 30; 30]
           "forward" Sample.profile Edge.other_profile _ _ sample_record eq_refl eq_refl).
  intros i nucl qual Hi.
  destruct i as [| [| [| [| i]]]]; try discriminate Hi; injection Hi as <- <-;
    eexists _, _, _; repeat split; reflexivity.
Defined.

(** The calls of the generators in a run of each model on the example. *)
Lemma basic_mut_sequence_draws_witness :
  exists d',
    heap (BasicErrorModel.mut_sequence BasicErrorModel.init 2 "forward" Sample.world0).2
      !! 5%nat = Some (Seq d')
    /\ py_random (BasicErrorModel.mut_sequence BasicErrorModel.init 2 "forward"
                    Sample.world0).2
       = py_random (py_advance (4 `min` 4 + changed Sample.acgt d') Sample.world0)
    /\ np_random (BasicErrorModel.mut_sequence BasicErrorModel.init 2 "forward"
                    Sample.world0).2
       = np_random Sample.world0
    /\ stdout (BasicErrorModel.mut_sequence BasicErrorModel.init 2 "forward"
                 Sample.world0).2
       = stdout Sample.world0.
Proof.
  apply (basic_mut_sequence_draws Sample.world0 2 Sample.acgt [30; 30; 30; 30] "forward"
           BasicErrorModel.init 5 _ sample_record).
  run_is 5%nat.
Defined.

Lemma kde_mut_sequence_draws_witness :
  exists d',
    heap (KernelDensityErrorModel.mut_sequence Sample.profile 2 "forward" Sample.world0).2
      !! 5%nat = Some (Seq d')
    /\ py_random (KernelDensityErrorModel.mut_sequence Sample.profile 2 "forward"
                    Sample.world0).2
       = py_random (py_advance (4 `min` 4) Sample.world0)
    /\ np_random (KernelDensityErrorModel.mut_sequence Sample.profile 2 "forward"
                    Sample.world0).2
       = np_random (np_advance (changed Sample.acgt d') Sample.world0)
    /\ stdout (KernelDensityErrorModel.mut_sequence Sample.profile 2 "forward"
                 Sample.world0).2
       = stdout Sample.world0.
Proof.
  apply (kde_mut_sequence_draws Sample.world0 2 Sample.acgt [30; 30; 30; 30] "forward"
           Sample.profile _ 5 _ sample_record eq_refl).
  run_is 5%nat.
Defined.

(** The four scores of the sample profile. *)
Lemma kde_scores_are_bin_edges_witness :
  exists l,
    (KernelDensityErrorModel.gen_phred_scores Sample.profile
       (KernelDensityErrorModel.quality_hist_forward Sample.profile) Sample.world0).1
    = Return l
    /\ Forall2 (fun hist q => exists edge, edge ∈ py_slice_from hist.2 1
                                /\ py_round edge = Return q)
         (KernelDensityErrorModel.quality_hist_forward Sample.profile) l.
Proof.
  destruct (KernelDensityErrorModel.gen_phred_scores Sample.profile
              (KernelDensityErrorModel.quality_hist_forward Sample.profile) Sample.world0)
    as [[l | e] w1] eqn:Hl.
  - exists l. split; [reflexivity |].
    exact (kde_scores_are_bin_edges Sample.profile _ Sample.world0 l w1 Hl).
  - apply (f_equal fst) in Hl. vm_compute in Hl. discriminate Hl.
Defined.

(** A second histogram without observations. *)
Lemma degenerate_histogram_value_error_witness :
  is_return (KernelDensityErrorModel.gen_phred_scores Edge.flat_profile
               (KernelDensityErrorModel.quality_hist_forward Edge.flat_profile)
               Sample.world0).1 = false
  /\ KernelDensityErrorModel.gen_phred_scores Edge.flat_profile
       (KernelDensityErrorModel.quality_hist_forward Edge.flat_profile) Sample.world0
     = (Raise ValueError, np_advance 1 Sample.world0).
Proof.
  destruct (degenerate_histogram_value_error Edge.flat_profile
              (KernelDensityErrorModel.quality_hist_forward Edge.flat_profile)
              Sample.world0 1 ([0; 0; 0], [0; 10; 20; 30]%float) eq_refl) as [Hnever Hat].
  { right. repeat constructor. }
  split; [exact Hnever |]. apply Hat.
  apply draws_defined_check. vm_compute. reflexivity.
Defined.

(** The record that has no annotation gets its four scores. *)
Lemma introduce_error_scores_annotates_witness :
  (exists l, length l = 4%nat
     /\ (BasicErrorModel.introduce_error_scores Edge.four 3 "forward" Sample.world0).2
        = set_heap (annotated Sample.store0 3 0 ∅ l) (np_advance 4 Sample.world0)
     /\ holds_record
          (BasicErrorModel.introduce_error_scores Edge.four 3 "forward" Sample.world0).2
          3 Sample.acgt l)
  /\ (exists l, length l = 4%nat
     /\ (KernelDensityErrorModel.introduce_error_scores Sample.profile 3 "reverse"
           Sample.world0).2
        = set_heap (annotated Sample.store0 3 0 ∅ l) (np_advance 4 Sample.world0)
     /\ holds_record
          (KernelDensityErrorModel.introduce_error_scores Sample.profile 3 "reverse"
             Sample.world0).2
          3 Sample.acgt l).
Proof.
  split.
  - destruct (introduce_error_scores_annotates Sample.world0 3 0 ∅ Sample.acgt "forward" 3
                (BasicErrorModel.introduce_error_scores Edge.four 3 "forward"
                   Sample.world0).2 eq_refl eq_refl) as [Hbasic _].
    apply (Hbasic Edge.four). run_is 3%nat.
  - destruct (introduce_error_scores_annotates Sample.world0 3 0 ∅ Sample.acgt "reverse" 3
                (KernelDensityErrorModel.introduce_error_scores Sample.profile 3 "reverse"
                   Sample.world0).2 eq_refl eq_refl) as [_ Hkde].
    apply (Hkde Sample.profile); [now right |]. run_is 3%nat.
Defined.

(** Four letters, and models that draw 125 scores and two scores. *)
Lemma introduce_error_scores_length_check_witness :
  (BasicErrorModel.introduce_error_scores BasicErrorModel.init 3 "forward"
     Sample.world0).1 = Raise TypeError
  /\ (KernelDensityErrorModel.introduce_error_scores Edge.short_profile 3 "forward"
        Sample.world0).1 = Raise TypeError.
Proof.
  destruct (introduce_error_scores_length_check Sample.world0 3 0 ∅ Sample.acgt "forward"
              eq_refl eq_refl) as [Hbasic Hkde].
  split.
  - destruct (Hbasic BasicErrorModel.init) as [_ Hat]; [discriminate |].
    assert (Hret : is_return (BasicErrorModel.gen_phred_scores BasicErrorModel.init
                                0.999%float Sample.world0).1 = true)
      by (vm_compute; reflexivity).
    destruct (BasicErrorModel.gen_phred_scores BasicErrorModel.init 0.999%float
                Sample.world0) as [[l | e] w1] eqn:Hl; [| discriminate Hret].
    rewrite (Hat 0.999%float l w1); [reflexivity | vm_compute; reflexivity | exact Hl].
  - destruct (Hkde Edge.short_profile _ eq_refl) as [_ Hat]; [discriminate |].
    assert (Hret : is_return (KernelDensityErrorModel.gen_phred_scores Edge.short_profile
                                (KernelDensityErrorModel.quality_hist_forward
                                   Edge.short_profile) Sample.world0).1 = true)
      by (vm_compute; reflexivity).
    destruct (KernelDensityErrorModel.gen_phred_scores Edge.short_profile _ Sample.world0)
      as [[l | e] w1] eqn:Hl; [| discriminate Hret].
    now rewrite (Hat l w1 eq_refl).
Defined.

(** Both methods, one after the other, on the record that has no
    annotation. *)
Lemma scores_then_substitutions_witness :
  (let w1 := (BasicErrorModel.introduce_error_scores Edge.four 3 "forward"
                Sample.world0).2 in
   let w2 := (BasicErrorModel.mut_sequence Edge.four 3 "forward" w1).2 in
   exists d', heap w2 !! 6%nat = Some (Seq d')
     /\ length d' = 4%nat
     /\ py_random w2 = py_random (py_advance (4 + changed Sample.acgt d') Sample.world0)
     /\ np_random w2 = np_random (np_advance 4 Sample.world0))
  /\ (let w1 := (KernelDensityErrorModel.introduce_error_scores Sample.profile 3 "forward"
                   Sample.world0).2 in
      let w2 := (KernelDensityErrorModel.mut_sequence Sample.profile 3 "reverse" w1).2 in
      exists d', heap w2 !! 6%nat = Some (Seq d')
        /\ length d' = 4%nat
        /\ py_random w2 = py_random (py_advance 4 Sample.world0)
        /\ np_random w2 = np_random (np_advance (4 + changed Sample.acgt d') Sample.world0)).
Proof.
  split; intros w1 w2.
  - destruct (scores_then_substitutions Sample.world0 3 0 ∅ Sample.acgt "forward" "forward"
                3 w1 6 w2 eq_refl eq_refl) as [Hbasic _].
    apply (Hbasic Edge.four); subst w2 w1; run_is 3%nat.
  - destruct (scores_then_substitutions Sample.world0 3 0 ∅ Sample.acgt "forward" "reverse"
                3 w1 6 w2 eq_refl eq_refl) as [_ Hkde].
    apply (Hkde Sample.profile _ (or_introl eq_refl) eq_refl); subst w2 w1; run_is 3%nat.
Defined.
